(** * evocore Python bindings: a shallow embedding and its properties

    The bindings under [python/evocore] wrap a C library through cffi.  The
    Python side is embedded here function by function; every call into the C
    library goes through the interface [evocore_lib] below, whose members carry
    the names and argument order of the declarations in [_ffi_build.py].

    Conventions:
    - a Python [str] is a Rocq [string], the bytes of its UTF-8 encoding; a
      lone surrogate, which a [str] may hold and the codec refuses, is the
      three bytes of its generalised encoding, so that the strings
      [s.encode()] refuses are those that are not valid UTF-8;
    - a C string is a Rocq [string] too, the bytes up to its terminator;
    - a Python [int] is a [Z], a C [double] is a primitive [float], a C
      [size_t] or [unsigned int] is a [Z] with its range written out;
    - a Python call that can raise returns a [result]; a call that mutates an
      object returns the new object next to its result. *)

From Stdlib Require Import ZArith NArith List String Ascii Bool Lia Floats.
From stdpp Require Import gmap strings list.

Local Open Scope string_scope.
Local Open Scope Z_scope.

(* Decimal literals such as 0.1 stand for the nearest double. *)
Set Warnings "-inexact-float".

(** ** Python-level plumbing *)

(** The exception classes the embedded code can raise: Python's built-in ones
    and the hierarchy of [utils/error.py] (each [EvocoreError] carries the
    optional [code] of its constructor).  [ValueError] also stands for its
    subclasses [UnicodeEncodeError] and [UnicodeDecodeError]. *)
Inductive exn : Type :=
| ValueError
| IndexError
| OverflowError
| TypeError
| AttributeError
| EvocoreError (code : option Z)
| EvocoreNullPointerError (code : option Z)
| EvocoreOutOfMemoryError (code : option Z)
| EvocoreInvalidArgumentError (code : option Z)
| EvocoreGenomeError (code : option Z)
| EvocorePopulationError (code : option Z)
| EvocoreConfigError (code : option Z)
| EvocoreFileError (code : option Z).

Inductive result (A : Type) : Type :=
| Ok (a : A)
| Raise (e : exn).
Arguments Ok {A} a.
Arguments Raise {A} e.

Definition rbind {A B : Type} (k : A -> result B) (r : result A) : result B :=
  match r with
  | Ok a => k a
  | Raise e => Raise e
  end.

(** [result] is used through stdpp's monad notation [x ← r; k]. *)
#[global] Instance result_ret : MRet result := fun A a => Ok a.
#[global] Instance result_bind : MBind result := fun A B k r => rbind k r.

Definition raises {A : Type} (r : result A) : Prop := exists e, r = Raise e.
Definition returns {A : Type} (r : result A) : Prop := exists a, r = Ok a.

(** [l[i]] for a non-negative index: [IndexError] past the end. *)
Definition py_index {A : Type} (l : list A) (i : nat) : result A :=
  match l !! i with
  | Some x => Ok x
  | None => Raise IndexError
  end.

(** [x in l] on a list of strings. *)
Definition py_in (x : string) (l : list string) : bool :=
  existsb (String.eqb x) l.

(** [sep.join(l)]. *)
Fixpoint py_join (sep : string) (l : list string) : string :=
  match l with
  | [] => ""
  | [x] => x
  | x :: rest => (x ++ sep ++ py_join sep rest)%string
  end.

(** *** Strings at the cffi boundary

    A [str] reaches a [char*] parameter as the bytes of [s.encode()], of
    which C reads those before the first NUL; a [char*] the library fills or
    returns is read the same way by [ffi.string] and made a [str] by
    [.decode()].  Both codecs are the strict UTF-8 one. *)

(** The bytes before the first NUL. *)
Fixpoint c_str (bytes : string) : string :=
  match bytes with
  | EmptyString => ""
  | String c rest =>
      if Ascii.eqb c Ascii.zero then "" else String c (c_str rest)
  end.

(** The string has no NUL. *)
Fixpoint nul_free (s : string) : bool :=
  match s with
  | EmptyString => true
  | String c rest => negb (Ascii.eqb c Ascii.zero) && nul_free rest
  end.

(** The first [n] bytes. *)
Fixpoint first_bytes (n : nat) (bytes : string) : string :=
  match n, bytes with
  | S n', String c rest => String c (first_bytes n' rest)
  | _, _ => ""
  end.

(** [ffi.string(buf)] on a [char[size]] array holding [bytes]: the bytes
    before the first NUL, [size] of them at most. *)
Definition ffi_string_array (size : nat) (bytes : string) : string :=
  c_str (first_bytes size bytes).

(** The strict UTF-8 codec as an automaton over bytes: the state is what
    the bytes read so far leave to come.  Overlong forms, surrogates and
    code points past U+10FFFF are refused through the bounds on the byte
    that follows [E0], [ED], [F0] and [F4]. *)
Inductive utf8_state : Type :=
| utf8_start
| utf8_tail1
| utf8_tail2
| utf8_tail3
| utf8_after_E0
| utf8_after_ED
| utf8_after_F0
| utf8_after_F4
| utf8_reject.

Definition byte_in (lo hi b : N) : bool := ((lo <=? b) && (b <=? hi))%N.

Definition utf8_step (st : utf8_state) (b : N) : utf8_state :=
  match st with
  | utf8_start =>
      if byte_in 0x00 0x7F b then utf8_start
      else if byte_in 0xC2 0xDF b then utf8_tail1
      else if byte_in 0xE0 0xE0 b then utf8_after_E0
      else if byte_in 0xE1 0xEC b then utf8_tail2
      else if byte_in 0xED 0xED b then utf8_after_ED
      else if byte_in 0xEE 0xEF b then utf8_tail2
      else if byte_in 0xF0 0xF0 b then utf8_after_F0
      else if byte_in 0xF1 0xF3 b then utf8_tail3
      else if byte_in 0xF4 0xF4 b then utf8_after_F4
      else utf8_reject
  | utf8_tail1 => if byte_in 0x80 0xBF b then utf8_start else utf8_reject
  | utf8_tail2 => if byte_in 0x80 0xBF b then utf8_tail1 else utf8_reject
  | utf8_tail3 => if byte_in 0x80 0xBF b then utf8_tail2 else utf8_reject
  | utf8_after_E0 => if byte_in 0xA0 0xBF b then utf8_tail1 else utf8_reject
  | utf8_after_ED => if byte_in 0x80 0x9F b then utf8_tail1 else utf8_reject
  | utf8_after_F0 => if byte_in 0x90 0xBF b then utf8_tail2 else utf8_reject
  | utf8_after_F4 => if byte_in 0x80 0x8F b then utf8_tail2 else utf8_reject
  | utf8_reject => utf8_reject
  end.

Fixpoint utf8_run (st : utf8_state) (bytes : string) : utf8_state :=
  match bytes with
  | EmptyString => st
  | String c rest => utf8_run (utf8_step st (N_of_ascii c)) rest
  end.

(** The bytes are valid UTF-8: the automaton ends between two code
    points. *)
Definition utf8_valid (bytes : string) : bool :=
  match utf8_run utf8_start bytes with
  | utf8_start => true
  | _ => false
  end.

(** [s.encode()]: the bytes of [s], [UnicodeEncodeError] when [s] has a
    surrogate. *)
Definition py_encode (s : string) : result string :=
  if utf8_valid s then Ok s else Raise ValueError.

(** [bytes.decode()]: the [str] with these bytes, [UnicodeDecodeError] when
    they are not valid UTF-8. *)
Definition py_decode (bytes : string) : result string :=
  if utf8_valid bytes then Ok bytes else Raise ValueError.

(** The loop that fills [context_bufs]: [c.encode()] for each value in
    turn, stopping at the first one that raises. *)
Fixpoint encode_all (context : list string) : result (list string) :=
  match context with
  | [] => Ok []
  | c :: rest =>
      buf ← py_encode c;
      bufs ← encode_all rest;
      Ok (buf :: bufs)
  end.

(** A [str] that crosses the boundary unchanged: it can be encoded and C
    reads all of its bytes. *)
Definition c_text (s : string) : Prop :=
  utf8_valid s = true /\ nul_free s = true.

(** cffi's conversion of a Python [int] to a C [unsigned int] (32 bits) and
    [size_t] (64 bits): [OverflowError] outside the type's range. *)
Definition UINT_MAX : Z := 2 ^ 32 - 1.
Definition SIZE_MAX : Z := 2 ^ 64 - 1.

Definition to_unsigned_int (n : Z) : result Z :=
  if (0 <=? n) && (n <=? UINT_MAX) then Ok n else Raise OverflowError.

Definition to_size_t (n : Z) : result Z :=
  if (0 <=? n) && (n <=? SIZE_MAX) then Ok n else Raise OverflowError.

(** [utils/error.py]: [_ERROR_MAP] and [check_error]. *)
Definition _ERROR_MAP (code : Z) : option (option Z -> exn) :=
  if code =? -2 then Some EvocoreNullPointerError
  else if code =? -3 then Some EvocoreOutOfMemoryError
  else if code =? -4 then Some EvocoreInvalidArgumentError
  else if code =? -5 then Some EvocoreError
  else if (code =? -10) || (code =? -11) || (code =? -12) then Some EvocoreGenomeError
  else if (code =? -20) || (code =? -21) || (code =? -22) then Some EvocorePopulationError
  else if (code =? -30) || (code =? -31) || (code =? -32) then Some EvocoreConfigError
  else if (code =? -40) || (code =? -41) || (code =? -42) then Some EvocoreFileError
  else None.

Definition check_error (code : Z) : result unit :=
  if 0 <=? code then Ok tt
  else match _ERROR_MAP code with
       | Some exc_class => Raise (exc_class (Some code))
       | None => Raise (EvocoreError (Some code))
       end.

(** ** The foreign interface

    [evocore_meta_params_t] as [_ffi_build.py] declares it: [double] fields
    are floats, [size_t] fields are integers in [0, SIZE_MAX]. *)
Record evocore_meta_params_t : Type := {
  optimization_mutation_rate : float;
  variance_mutation_rate : float;
  experimentation_rate : float;
  elite_protection_ratio : float;
  culling_ratio : float;
  fitness_threshold_for_breeding : float;
  target_population_size : Z;
  min_population_size : Z;
  max_population_size : Z;
  learning_rate : float;
  exploration_factor : float;
  confidence_threshold : float;
  profitable_optimization_ratio : float;
  profitable_random_ratio : float;
  losing_optimization_ratio : float;
  losing_random_ratio : float;
  meta_mutation_rate : float;
  meta_learning_rate : float;
  meta_convergence_threshold : float;
  negative_learning_enabled : bool;
  negative_penalty_weight : float;
  negative_decay_rate : float;
  negative_capacity : Z;
  negative_similarity_threshold : float;
  negative_forbidden_threshold : float
}.

(** The functions of the compiled library that the embedded methods call.
    Their bodies are C code outside the bindings; each is a member here, with
    the C signature of its declaration:
    - an [out] buffer or a pointer the callee writes is returned next to the
      C return value;
    - a [const] pointer argument is read only, so no new state is returned for
      it;
    - a [const char **dimension_values] is the list of the C strings the
      caller's array points to.  The C functions are handed no count with
      it: they read as many entries as the system has dimensions
      ([system_dimension_count] below), so that a member describes the
      library on the lists that have at least that many. *)
Class evocore_lib : Type := {
  evocore_context_system_t : Type;
  evocore_weighted_array_t : Type;
  (* bool evocore_context_learn(system, dimension_values, parameters,
                                param_count, fitness) *)
  evocore_context_learn :
    evocore_context_system_t -> list string -> list float -> Z -> float ->
    bool * evocore_context_system_t;
  (* bool evocore_context_sample(const system, dimension_values,
                                 out_parameters, param_count,
                                 exploration_factor, seed):
     returns the values written to out_parameters and the new *seed *)
  evocore_context_sample :
    evocore_context_system_t -> list string -> Z -> float -> Z ->
    bool * list float * Z;
  (* bool evocore_context_build_key(const system, dimension_values,
                                    out_key, key_size) *)
  evocore_context_build_key :
    evocore_context_system_t -> list string -> Z -> bool * string;
  (* size_t evocore_context_count(const system) *)
  evocore_context_count : evocore_context_system_t -> Z;
  (* bool evocore_weighted_array_update(array, values, weights, count,
                                        global_weight) *)
  evocore_weighted_array_update :
    evocore_weighted_array_t -> list float -> list float -> Z -> float ->
    bool * evocore_weighted_array_t;
  (* void evocore_meta_params_init(params) *)
  evocore_meta_params_init : evocore_meta_params_t;
  (* evocore_error_t evocore_meta_params_set(params, name, value) *)
  evocore_meta_params_set :
    evocore_meta_params_t -> string -> float -> Z * evocore_meta_params_t
}.

(** The member [dimension_count] of the declared struct
    [evocore_context_system_t]: the number of dimensions the system was
    created or saved with. *)
Class context_struct (lib : evocore_lib) : Type := {
  system_dimension_count : evocore_context_system_t -> Z
}.

(** NumPy's module-level generator, read and advanced by every
    [np.random.*] call: [np_random_uniform low high size] is
    [np.random.uniform(low, high, size)] on the current global state. *)
Class numpy_random : Type := {
  RandomState : Type;
  np_random_uniform : float -> float -> nat -> RandomState -> list float * RandomState
}.

(** What NumPy documents for [uniform(0, 1, size)]: [size] samples, each in
    the half-open interval [[0, 1)]. *)
Definition in_unit_interval (x : float) : Prop :=
  (0 <=? x)%float = true /\ (x <? 1)%float = true.

Definition uniform_contract (np : numpy_random) : Prop :=
  forall (size : nat) (g : RandomState),
    let out := (np_random_uniform 0%float 1%float size g).1 in
    length out = size /\ Forall in_unit_interval out.

(** ** learning/context.py *)
Module Context.
Section ContextSystem.
Context {lib : evocore_lib} {np : numpy_random}.

(** The slots of a [ContextSystem] that the methods read. *)
Record ContextSystem : Type := {
  _system : evocore_context_system_t;
  _dimensions : list (string * list string);
  _param_count : nat
}.

Definition with_system (self : ContextSystem) (sys : evocore_context_system_t)
  : ContextSystem :=
  {| _system := sys;
     _dimensions := _dimensions self;
     _param_count := _param_count self |}.

(** The property [context_count]. *)
Definition context_count (self : ContextSystem) : Z :=
  evocore_context_count (_system self).

(** [ContextSystem.learn]: both length checks come before the first call
    into the library.  The loop that encodes the values is left out: the
    method is described on values that can be encoded, as the values a
    constructed system declares are, its constructor having encoded each
    of them. *)
Definition learn (self : ContextSystem) (context : list string)
    (parameters : list float) (fitness : float)
  : result bool * ContextSystem :=
  if negb (length context =? length (_dimensions self))%nat then
    (Raise ValueError, self)
  else
    let params := parameters in
    if negb (length params =? _param_count self)%nat then
      (Raise ValueError, self)
    else
      let '(result, sys) :=
        evocore_context_learn (_system self) context params
                              (Z.of_nat (length params)) fitness in
      (Ok result, with_system self sys).

(** [out_params] is a zero-initialised [double[param_count]]; the library
    writes into it and the method reads its first [param_count] cells. *)
Definition read_doubles (written : list float) (n : nat) : list float :=
  map (fun i => nth i written 0%float) (seq 0 n).

(** [ContextSystem.sample].  The global NumPy generator is threaded
    explicitly: the method reads and advances it only on the fallback
    path.  The loop that encodes the values is left out, as in [learn]. *)
Definition sample (self : ContextSystem) (context : list string)
    (exploration : float) (seed : option Z) (g : RandomState)
  : result (list float) * RandomState :=
  if negb (length context =? length (_dimensions self))%nat then
    (Raise ValueError, g)
  else
    match to_unsigned_int (default 0 seed) with
    | Raise e => (Raise e, g)
    | Ok seed_ptr =>
        let '(success, out_params, _) :=
          evocore_context_sample (_system self) context
                                 (Z.of_nat (_param_count self))
                                 exploration seed_ptr in
        if negb success then
          let '(draw, g') :=
            np_random_uniform 0%float 1%float (_param_count self) g in
          (Ok draw, g')
        else
          (Ok (read_doubles out_params (_param_count self)), g)
    end.

(** [ContextSystem.build_key].  The values are encoded one by one into
    [context_bufs]; the library reads each buffer as a C string and fills
    the 1024 bytes of [out_key], which [ffi.string(out_key).decode()] reads
    back. *)
Definition build_key (self : ContextSystem) (context : list string)
  : result string :=
  if negb (length context =? length (_dimensions self))%nat then
    Raise ValueError
  else
    context_bufs ← encode_all context;
    let '(success, out_key) :=
      evocore_context_build_key (_system self) (map c_str context_bufs) 1024 in
    if negb success then Ok (py_join ":" context)
    else py_decode (ffi_string_array 1024 out_key).

(** The loop of [validate_context]: [i] is the index [enumerate] has
    reached, [dims] the dimensions still to visit. *)
Fixpoint validate_loop (context : list string) (i : nat)
    (dims : list (string * list string)) : result bool :=
  match dims with
  | [] => Ok true
  | (name, valid_values) :: rest =>
      c ← py_index context i;
      if negb (py_in c valid_values) then Ok false
      else validate_loop context (S i) rest
  end.

(** [ContextSystem.validate_context]. *)
Definition validate_context (self : ContextSystem) (context : list string)
  : result bool :=
  if negb (length context =? length (_dimensions self))%nat then Ok false
  else validate_loop context 0 (_dimensions self).

(** A context is valid for the system when it has one value per declared
    dimension and each value belongs to the value set of its dimension. *)
Definition valid_context (self : ContextSystem) (context : list string) : Prop :=
  length context = length (_dimensions self) /\
  forall (i : nat) (c : string) (d : string * list string),
    context !! i = Some c -> _dimensions self !! i = Some d -> c ∈ d.2.

End ContextSystem.
End Context.

(** ** learning/weighted.py *)
Module Weighted.
Section WeightedArray.
Context {lib : evocore_lib}.

(** The slots of a [WeightedArray] that [update] reads. *)
Record WeightedArray : Type := {
  _array : evocore_weighted_array_t;
  _count : nat
}.

(** [np.ones(n)]. *)
Definition np_ones (n : nat) : list float := repeat 1%float n.

(** [WeightedArray.update]: [weights = None] is the default argument. *)
Definition update (self : WeightedArray) (values : list float)
    (weights : option (list float)) (global_weight : float)
  : result bool * WeightedArray :=
  if negb (length values =? _count self)%nat then (Raise ValueError, self)
  else
    let checked :=
      match weights with
      | None => Ok (np_ones (_count self))
      | Some w =>
          if negb (length w =? _count self)%nat then Raise ValueError
          else Ok w
      end in
    match checked with
    | Raise e => (Raise e, self)
    | Ok w =>
        let '(result, arr) :=
          evocore_weighted_array_update (_array self) values w
                                        (Z.of_nat (_count self)) global_weight in
        (Ok result, {| _array := arr; _count := _count self |})
    end.

End WeightedArray.
End Weighted.

(** ** utils/stats.py *)
Module Stats.

(** A [Stats] object, read through its properties: the fields of the
    [evocore_stats_t] it wraps. *)
Record Stats : Type := {
  generation : Z;
  total_generations : Z;
  best_fitness : float;
  avg_fitness : float;
  worst_fitness : float;
  fitness_stddev : float;
  fitness_improvement : float;
  is_converged : bool;
  is_stagnant : bool;
  stagnant_generations : Z;
  diversity : float;
  diversity_trend : float;
  generation_time_ms : float;
  total_time_ms : float;
  avg_eval_time_ms : float;
  evaluation_count : Z;
  mutation_count : Z;
  crossover_count : Z;
  memory_used : Z;
  peak_memory : Z
}.

Section ProgressReporter.
(** What the callback acts on (a console, a log, a list of snapshots). *)
Context {World : Type}.

(** A callback is a [Callable[[Stats], None]] that returns normally: it
    transforms the world it acts on. *)
Record ProgressReporter : Type := {
  _callback : Stats -> World -> World;
  _every_n : Z;
  _verbose : bool;
  _last_reported : Z
}.

(** [ProgressReporter.__init__]. *)
Definition init (callback : Stats -> World -> World) (every_n : Z)
    (verbose : bool) : ProgressReporter :=
  {| _callback := callback;
     _every_n := every_n;
     _verbose := verbose;
     _last_reported := -1 |}.

Definition set_last_reported (self : ProgressReporter) (gen : Z)
  : ProgressReporter :=
  {| _callback := _callback self;
     _every_n := _every_n self;
     _verbose := _verbose self;
     _last_reported := gen |}.

(** The test of [report]: [gen - self._last_reported >= self._every_n]. *)
Definition due (self : ProgressReporter) (stats : Stats) : bool :=
  generation stats - _last_reported self >=? _every_n self.

(** [ProgressReporter.report]. *)
Definition report (self : ProgressReporter) (stats : Stats) (w : World)
  : ProgressReporter * World :=
  let gen := generation stats in
  if gen - _last_reported self >=? _every_n self then
    let w' := _callback self stats w in
    (set_last_reported self gen, w')
  else (self, w).

(** [ProgressReporter.force_report]. *)
Definition force_report (self : ProgressReporter) (stats : Stats) (w : World)
  : ProgressReporter * World :=
  let w' := _callback self stats w in
  (set_last_reported self (generation stats), w').

(** A driving loop that calls [report] once per snapshot, in order. *)
Fixpoint report_all (self : ProgressReporter) (snapshots : list Stats)
    (w : World) : ProgressReporter * World :=
  match snapshots with
  | [] => (self, w)
  | stats :: rest =>
      let '(self', w') := report self stats w in
      report_all self' rest w'
  end.

End ProgressReporter.

(** A callback that appends each snapshot it receives to a list: the list is
    the sequence of callback invocations, oldest first. *)
Definition recorder (stats : Stats) (seen : list Stats) : list Stats :=
  (seen ++ [stats])%list.

(** Every snapshot is at least [every_n] generations after the one before
    it, the first one after [last]. *)
Fixpoint spaced (every_n last : Z) (seen : list Stats) : Prop :=
  match seen with
  | [] => True
  | s :: rest => generation s - last >= every_n /\ spaced every_n (generation s) rest
  end.

End Stats.

(** ** utils/config.py *)

(** Python's [str.lower], on the UTF-8 view of a string.  Its case mapping
    of non-ASCII text comes from the interpreter's Unicode tables. *)
Class python_str : Type := {
  str_lower : string -> string
}.

Definition ascii_lower (c : ascii) : ascii :=
  let n := nat_of_ascii c in
  if ((65 <=? n) && (n <=? 90))%nat then ascii_of_nat (n + 32) else c.

Fixpoint ascii_lower_string (s : string) : string :=
  match s with
  | EmptyString => EmptyString
  | String c rest => String (ascii_lower c) (ascii_lower_string rest)
  end.

Fixpoint is_ascii_string (s : string) : bool :=
  match s with
  | EmptyString => true
  | String c rest => (nat_of_ascii c <? 128)%nat && is_ascii_string rest
  end.

(** On ASCII text, [str.lower] maps [A-Z] to [a-z] and keeps the rest. *)
Definition lower_contract (py : python_str) : Prop :=
  forall s : string, is_ascii_string s = true -> str_lower s = ascii_lower_string s.

Module Config.

Inductive ConfigType : Type := STRING | INT | DOUBLE | BOOL.

(** The slots of a [ConfigEntry]; [type] is a Rocq keyword. *)
Record ConfigEntry : Type := {
  key : string;
  value : string;
  type_ : ConfigType
}.

Section ConfigEntry.
Context {py : python_str}.

(** [ConfigEntry.as_bool]. *)
Definition as_bool (self : ConfigEntry) : result bool :=
  Ok (py_in (str_lower (value self)) ["true"; "1"; "yes"; "on"]).

End ConfigEntry.
End Config.

(** ** meta/params.py *)
Module Params.

(** A Python value that can sit in the dictionaries of [to_dict] and
    [from_dict]. *)
Inductive pyval : Type :=
| PyFloat (x : float)
| PyInt (n : Z)
| PyBool (b : bool).

(** The members of [evocore_meta_params_t], in declaration order. *)
Inductive field : Type :=
| f_optimization_mutation_rate | f_variance_mutation_rate
| f_experimentation_rate | f_elite_protection_ratio | f_culling_ratio
| f_fitness_threshold_for_breeding | f_target_population_size
| f_min_population_size | f_max_population_size | f_learning_rate
| f_exploration_factor | f_confidence_threshold
| f_profitable_optimization_ratio | f_profitable_random_ratio
| f_losing_optimization_ratio | f_losing_random_ratio | f_meta_mutation_rate
| f_meta_learning_rate | f_meta_convergence_threshold
| f_negative_learning_enabled | f_negative_penalty_weight
| f_negative_decay_rate | f_negative_capacity
| f_negative_similarity_threshold | f_negative_forbidden_threshold.

#[global] Instance field_eq_dec : EqDecision field.
Proof. solve_decision. Defined.

Definition all_fields : list field :=
  [ f_optimization_mutation_rate; f_variance_mutation_rate;
    f_experimentation_rate; f_elite_protection_ratio; f_culling_ratio;
    f_fitness_threshold_for_breeding; f_target_population_size;
    f_min_population_size; f_max_population_size; f_learning_rate;
    f_exploration_factor; f_confidence_threshold;
    f_profitable_optimization_ratio; f_profitable_random_ratio;
    f_losing_optimization_ratio; f_losing_random_ratio; f_meta_mutation_rate;
    f_meta_learning_rate; f_meta_convergence_threshold;
    f_negative_learning_enabled; f_negative_penalty_weight;
    f_negative_decay_rate; f_negative_capacity;
    f_negative_similarity_threshold; f_negative_forbidden_threshold ].

(** The C type of a member. *)
Inductive ctype : Type := c_double | c_size_t | c_bool.

Definition field_type (f : field) : ctype :=
  match f with
  | f_target_population_size | f_min_population_size
  | f_max_population_size | f_negative_capacity => c_size_t
  | f_negative_learning_enabled => c_bool
  | _ => c_double
  end.

(** The name of the property that exposes a member (the member's name). *)
Definition field_name (f : field) : string :=
  match f with
  | f_optimization_mutation_rate => "optimization_mutation_rate"
  | f_variance_mutation_rate => "variance_mutation_rate"
  | f_experimentation_rate => "experimentation_rate"
  | f_elite_protection_ratio => "elite_protection_ratio"
  | f_culling_ratio => "culling_ratio"
  | f_fitness_threshold_for_breeding => "fitness_threshold_for_breeding"
  | f_target_population_size => "target_population_size"
  | f_min_population_size => "min_population_size"
  | f_max_population_size => "max_population_size"
  | f_learning_rate => "learning_rate"
  | f_exploration_factor => "exploration_factor"
  | f_confidence_threshold => "confidence_threshold"
  | f_profitable_optimization_ratio => "profitable_optimization_ratio"
  | f_profitable_random_ratio => "profitable_random_ratio"
  | f_losing_optimization_ratio => "losing_optimization_ratio"
  | f_losing_random_ratio => "losing_random_ratio"
  | f_meta_mutation_rate => "meta_mutation_rate"
  | f_meta_learning_rate => "meta_learning_rate"
  | f_meta_convergence_threshold => "meta_convergence_threshold"
  | f_negative_learning_enabled => "negative_learning_enabled"
  | f_negative_penalty_weight => "negative_penalty_weight"
  | f_negative_decay_rate => "negative_decay_rate"
  | f_negative_capacity => "negative_capacity"
  | f_negative_similarity_threshold => "negative_similarity_threshold"
  | f_negative_forbidden_threshold => "negative_forbidden_threshold"
  end.

(** Reading a member through cffi: a [double] comes back as a Python float,
    a [size_t] as an int, a [bool] as a bool. *)
Definition read_field (p : evocore_meta_params_t) (f : field) : pyval :=
  match f with
  | f_optimization_mutation_rate => PyFloat (optimization_mutation_rate p)
  | f_variance_mutation_rate => PyFloat (variance_mutation_rate p)
  | f_experimentation_rate => PyFloat (experimentation_rate p)
  | f_elite_protection_ratio => PyFloat (elite_protection_ratio p)
  | f_culling_ratio => PyFloat (culling_ratio p)
  | f_fitness_threshold_for_breeding => PyFloat (fitness_threshold_for_breeding p)
  | f_target_population_size => PyInt (target_population_size p)
  | f_min_population_size => PyInt (min_population_size p)
  | f_max_population_size => PyInt (max_population_size p)
  | f_learning_rate => PyFloat (learning_rate p)
  | f_exploration_factor => PyFloat (exploration_factor p)
  | f_confidence_threshold => PyFloat (confidence_threshold p)
  | f_profitable_optimization_ratio => PyFloat (profitable_optimization_ratio p)
  | f_profitable_random_ratio => PyFloat (profitable_random_ratio p)
  | f_losing_optimization_ratio => PyFloat (losing_optimization_ratio p)
  | f_losing_random_ratio => PyFloat (losing_random_ratio p)
  | f_meta_mutation_rate => PyFloat (meta_mutation_rate p)
  | f_meta_learning_rate => PyFloat (meta_learning_rate p)
  | f_meta_convergence_threshold => PyFloat (meta_convergence_threshold p)
  | f_negative_learning_enabled => PyBool (negative_learning_enabled p)
  | f_negative_penalty_weight => PyFloat (negative_penalty_weight p)
  | f_negative_decay_rate => PyFloat (negative_decay_rate p)
  | f_negative_capacity => PyInt (negative_capacity p)
  | f_negative_similarity_threshold => PyFloat (negative_similarity_threshold p)
  | f_negative_forbidden_threshold => PyFloat (negative_forbidden_threshold p)
  end.

(** A value as a C member stores it. *)
Inductive cval : Type :=
| CDouble (x : float)
| CSize (n : Z)
| CBool (b : bool).

Definition cval_double (v : cval) : float :=
  match v with CDouble x => x | _ => 0%float end.
Definition cval_size (v : cval) : Z :=
  match v with CSize n => n | _ => 0 end.
Definition cval_bool (v : cval) : bool :=
  match v with CBool b => b | _ => false end.

Definition stored (p : evocore_meta_params_t) (f : field) : cval :=
  match read_field p f with
  | PyFloat x => CDouble x
  | PyInt n => CSize n
  | PyBool b => CBool b
  end.

(** The struct whose member [f] holds [g f]. *)
Definition struct_of (g : field -> cval) : evocore_meta_params_t :=
  {| optimization_mutation_rate := cval_double (g f_optimization_mutation_rate);
     variance_mutation_rate := cval_double (g f_variance_mutation_rate);
     experimentation_rate := cval_double (g f_experimentation_rate);
     elite_protection_ratio := cval_double (g f_elite_protection_ratio);
     culling_ratio := cval_double (g f_culling_ratio);
     fitness_threshold_for_breeding := cval_double (g f_fitness_threshold_for_breeding);
     target_population_size := cval_size (g f_target_population_size);
     min_population_size := cval_size (g f_min_population_size);
     max_population_size := cval_size (g f_max_population_size);
     learning_rate := cval_double (g f_learning_rate);
     exploration_factor := cval_double (g f_exploration_factor);
     confidence_threshold := cval_double (g f_confidence_threshold);
     profitable_optimization_ratio := cval_double (g f_profitable_optimization_ratio);
     profitable_random_ratio := cval_double (g f_profitable_random_ratio);
     losing_optimization_ratio := cval_double (g f_losing_optimization_ratio);
     losing_random_ratio := cval_double (g f_losing_random_ratio);
     meta_mutation_rate := cval_double (g f_meta_mutation_rate);
     meta_learning_rate := cval_double (g f_meta_learning_rate);
     meta_convergence_threshold := cval_double (g f_meta_convergence_threshold);
     negative_learning_enabled := cval_bool (g f_negative_learning_enabled);
     negative_penalty_weight := cval_double (g f_negative_penalty_weight);
     negative_decay_rate := cval_double (g f_negative_decay_rate);
     negative_capacity := cval_size (g f_negative_capacity);
     negative_similarity_threshold := cval_double (g f_negative_similarity_threshold);
     negative_forbidden_threshold := cval_double (g f_negative_forbidden_threshold) |}.

(** Assignment to one member: the others keep their values. *)
Definition store (p : evocore_meta_params_t) (f : field) (v : cval)
  : evocore_meta_params_t :=
  struct_of (fun f' => if decide (f' = f) then v else stored p f').

(** Python's [float(n)] for an int: the nearest double, [OverflowError] when
    that is not finite. *)
Definition float_of_int (n : Z) : result float :=
  match SpecFloat.binary_normalize FloatOps.prec FloatOps.emax n 0 false with
  | SpecFloat.S754_infinity _ => Raise OverflowError
  | sf => Ok (FloatOps.SF2Prim sf)
  end.

(** cffi's conversion of a Python value to a C member of the given type:
    a [double] takes a float or an int, an integer type takes an int in
    range and refuses a float, a [bool] takes 0 or 1. *)
Definition to_ctype (t : ctype) (v : pyval) : result cval :=
  match t, v with
  | c_double, PyFloat x => Ok (CDouble x)
  | c_double, PyInt n => x ← float_of_int n; Ok (CDouble x)
  | c_double, PyBool b => Ok (CDouble (if b then 1%float else 0%float))
  | c_size_t, PyInt n => m ← to_size_t n; Ok (CSize m)
  | c_size_t, PyBool b => Ok (CSize (if b then 1 else 0))
  | c_size_t, PyFloat _ => Raise TypeError
  | c_bool, PyBool b => Ok (CBool b)
  | c_bool, PyInt n =>
      if n =? 0 then Ok (CBool false)
      else if n =? 1 then Ok (CBool true)
      else Raise OverflowError
  | c_bool, PyFloat _ => Raise TypeError
  end.

(** A struct as C can hold it: every [size_t] member is in range. *)
Definition wf_params (p : evocore_meta_params_t) : Prop :=
  0 <= target_population_size p <= SIZE_MAX /\
  0 <= min_population_size p <= SIZE_MAX /\
  0 <= max_population_size p <= SIZE_MAX /\
  0 <= negative_capacity p <= SIZE_MAX.

(** The class attribute [PARAM_NAMES]. *)
Definition PARAM_NAMES : list string :=
  [ "optimization_mutation_rate"; "variance_mutation_rate";
    "experimentation_rate"; "elite_protection_ratio"; "culling_ratio";
    "fitness_threshold_for_breeding"; "target_population_size";
    "min_population_size"; "max_population_size"; "learning_rate";
    "exploration_factor"; "confidence_threshold";
    "profitable_optimization_ratio"; "profitable_random_ratio";
    "losing_optimization_ratio"; "losing_random_ratio"; "meta_mutation_rate";
    "meta_learning_rate"; "meta_convergence_threshold";
    "negative_penalty_weight"; "negative_decay_rate"; "negative_capacity";
    "negative_similarity_threshold"; "negative_forbidden_threshold" ].

(** What a slot of the object holds: the handle [__init__] stored there, or
    a Python value that a later [setattr] put in its place. *)
Inductive slot (A : Type) : Type :=
| Handle (a : A)
| Replaced (v : pyval).
Arguments Handle {A} a.
Arguments Replaced {A} v.

Inductive slot_name : Type := s_params | s_ffi | s_lib.

(** The [__slots__] of [MetaParams]: the [evocore_meta_params_t] that
    [ffi.new] allocated, the ffi object and the lib object. *)
Record MetaParams : Type := {
  _params : slot evocore_meta_params_t;
  _ffi : slot unit;
  _lib : slot unit
}.

Definition with_params (self : MetaParams) (s : slot evocore_meta_params_t)
  : MetaParams :=
  {| _params := s; _ffi := _ffi self; _lib := _lib self |}.

Definition with_slot (self : MetaParams) (s : slot_name) (v : pyval)
  : MetaParams :=
  match s with
  | s_params => {| _params := Replaced v; _ffi := _ffi self; _lib := _lib self |}
  | s_ffi => {| _params := _params self; _ffi := Replaced v; _lib := _lib self |}
  | s_lib => {| _params := _params self; _ffi := _ffi self; _lib := Replaced v |}
  end.

(** Names that attribute lookup on an instance resolves to something that
    is neither a property nor a slot: the methods and class attributes of
    the class body, and what every object inherits from [object]. *)
Definition class_attributes : list string :=
  [ "__init__"; "validate"; "mutate"; "clone"; "get"; "set"; "print";
    "to_dict"; "from_dict"; "__repr__"; "PARAM_NAMES"; "__slots__";
    "__module__"; "__doc__"; "__class__"; "__delattr__"; "__dir__"; "__eq__";
    "__format__"; "__ge__"; "__getattribute__"; "__getstate__"; "__gt__";
    "__hash__"; "__init_subclass__"; "__le__"; "__lt__"; "__ne__"; "__new__";
    "__reduce__"; "__reduce_ex__"; "__setattr__"; "__sizeof__"; "__str__";
    "__subclasshook__" ].

(** How a name resolves on a [MetaParams] instance. *)
Inductive attribute : Type :=
| Property (f : field)
| Slot (s : slot_name)
| ClassAttribute
| NoAttribute.

Definition find_field (name : string) : option field :=
  find (fun f => String.eqb (field_name f) name) all_fields.

Definition resolve (name : string) : attribute :=
  match find_field name with
  | Some f => Property f
  | None =>
      if String.eqb name "_params" then Slot s_params
      else if String.eqb name "_ffi" then Slot s_ffi
      else if String.eqb name "_lib" then Slot s_lib
      else if py_in name class_attributes then ClassAttribute
      else NoAttribute
  end.

(** A property getter, [return self._params.<member>]. *)
Definition get_property (self : MetaParams) (f : field) : result pyval :=
  match _params self with
  | Handle p => Ok (read_field p f)
  | Replaced _ => Raise AttributeError
  end.

(** A property setter, [self._params.<member> = value]. *)
Definition set_property (self : MetaParams) (f : field) (value : pyval)
  : result MetaParams :=
  match _params self with
  | Handle p =>
      c ← to_ctype (field_type f) value;
      Ok (with_params self (Handle (store p f c)))
  | Replaced _ => Raise AttributeError
  end.

(** [hasattr(self, name)]: the lookup runs the getter of a property and
    answers [False] when it raises [AttributeError]. *)
Definition hasattr (self : MetaParams) (name : string) : bool :=
  match resolve name with
  | Property f =>
      match get_property self f with
      | Ok _ => true
      | Raise _ => false
      end
  | Slot _ => true
  | ClassAttribute => true
  | NoAttribute => false
  end.

(** [setattr(self, name, value)] on an instance with [__slots__]. *)
Definition setattr (self : MetaParams) (name : string) (value : pyval)
  : result MetaParams :=
  match resolve name with
  | Property f => set_property self f value
  | Slot s => Ok (with_slot self s value)
  | ClassAttribute =>
      if String.eqb name "__class__" then Raise TypeError
      else Raise AttributeError
  | NoAttribute => Raise AttributeError
  end.

(** [MetaParams.to_dict]: the dictionary literal, in source order. *)
Definition to_dict (self : MetaParams) : result (list (string * pyval)) :=
  match _params self with
  | Replaced _ => Raise AttributeError
  | Handle p =>
      Ok [ ("optimization_mutation_rate", read_field p f_optimization_mutation_rate);
           ("variance_mutation_rate", read_field p f_variance_mutation_rate);
           ("experimentation_rate", read_field p f_experimentation_rate);
           ("elite_protection_ratio", read_field p f_elite_protection_ratio);
           ("culling_ratio", read_field p f_culling_ratio);
           ("fitness_threshold_for_breeding", read_field p f_fitness_threshold_for_breeding);
           ("target_population_size", read_field p f_target_population_size);
           ("min_population_size", read_field p f_min_population_size);
           ("max_population_size", read_field p f_max_population_size);
           ("learning_rate", read_field p f_learning_rate);
           ("exploration_factor", read_field p f_exploration_factor);
           ("confidence_threshold", read_field p f_confidence_threshold);
           ("profitable_optimization_ratio", read_field p f_profitable_optimization_ratio);
           ("profitable_random_ratio", read_field p f_profitable_random_ratio);
           ("losing_optimization_ratio", read_field p f_losing_optimization_ratio);
           ("losing_random_ratio", read_field p f_losing_random_ratio);
           ("meta_mutation_rate", read_field p f_meta_mutation_rate);
           ("meta_learning_rate", read_field p f_meta_learning_rate);
           ("meta_convergence_threshold", read_field p f_meta_convergence_threshold);
           ("negative_learning_enabled", read_field p f_negative_learning_enabled);
           ("negative_penalty_weight", read_field p f_negative_penalty_weight);
           ("negative_decay_rate", read_field p f_negative_decay_rate);
           ("negative_capacity", read_field p f_negative_capacity);
           ("negative_similarity_threshold", read_field p f_negative_similarity_threshold);
           ("negative_forbidden_threshold", read_field p f_negative_forbidden_threshold) ]
  end.

Section MetaParams.
Context {lib : evocore_lib}.

(** [MetaParams()]: the struct as [evocore_meta_params_init] fills it. *)
Definition new : MetaParams :=
  {| _params := Handle evocore_meta_params_init;
     _ffi := Handle tt;
     _lib := Handle tt |}.

(** [MetaParams.set].  The arguments of the call are evaluated before cffi
    converts them: [name.encode()] raises before a replaced [_params] is
    refused.  The library reads the encoded name as a C string. *)
Definition set (self : MetaParams) (name : string) (value : float)
  : result unit * MetaParams :=
  match _lib self with
  | Replaced _ => (Raise AttributeError, self)
  | Handle _ =>
      match py_encode name with
      | Raise e => (Raise e, self)
      | Ok name_buf =>
          match _params self with
          | Replaced _ => (Raise TypeError, self)
          | Handle p =>
              let '(err, p') :=
                evocore_meta_params_set p (c_str name_buf) value in
              (check_error err, with_params self (Handle p'))
          end
      end
  end.

(** The loop of [from_dict] over [d.items()], a dictionary being the list
    of its items in insertion order. *)
Fixpoint from_dict_loop (params : MetaParams) (items : list (string * pyval))
  : result MetaParams :=
  match items with
  | [] => Ok params
  | (name, value) :: rest =>
      if hasattr params name then
        params' ← setattr params name value;
        from_dict_loop params' rest
      else from_dict_loop params rest
  end.

(** [MetaParams.from_dict]. *)
Definition from_dict (d : list (string * pyval)) : result MetaParams :=
  from_dict_loop new d.

End MetaParams.
End Params.

(** ** A reference model of the compiled library

    The C sources are outside the bindings.  The definitions of this module
    follow the specification's description of the library; they give the
    interface [evocore_lib] an inhabitant and carry the statements that are
    about the library itself. *)
Module Reference.

(** Modelled from the spec: the state behind an [evocore_context_system_t]
    (the C struct's [internal] hash table is missing from the bindings).
    Dimension definitions are fixed at construction; a context's statistics
    are created on the first [learn] for its key, and summarise the
    experiences learnt under that key, kept here oldest first. *)
Record context_system : Type := {
  dimensions : list (string * list string);
  param_count : Z;
  contexts : gmap string (list (list float * float))
}.

(** Modelled from the spec: [evocore_context_system_create] (C, missing),
    a system with no context. *)
Definition context_system_create (dims : list (string * list string))
    (count : Z) : context_system :=
  {| dimensions := dims; param_count := count; contexts := ∅ |}.

(** Modelled from the spec: [evocore_context_validate_values] (C, missing),
    one value per declared dimension, each from that dimension's allowed
    set. *)
Fixpoint validate_values (dims : list (string * list string))
    (values : list string) : bool :=
  match dims, values with
  | [], [] => true
  | (_, allowed) :: dims', v :: values' =>
      py_in v allowed && validate_values dims' values'
  | _, _ => false
  end.

(** Modelled from the spec: [evocore_context_build_key] (C, missing), the
    order-preserving concatenation of the values with a separator, refused
    when a value does not validate.  The separator is the one of the
    binding's own fallback, and a key that does not fit the [key_size] bytes
    of the caller's buffer with its terminator is refused. *)
Definition build_key (sys : context_system) (values : list string)
    (key_size : Z) : bool * string :=
  if validate_values (dimensions sys) values then
    let k := py_join ":" values in
    if Z.of_nat (String.length k) <? key_size then (true, k) else (false, "")
  else (false, "").

(** Modelled from the spec: [evocore_context_learn] (C, missing), which
    resolves or creates the statistics of the key and adds the experience;
    it fails, changing nothing, on values that do not validate or on a
    parameter count other than the system's. *)
Definition learn (sys : context_system) (values : list string)
    (parameters : list float) (count : Z) (fitness : float)
  : bool * context_system :=
  if validate_values (dimensions sys) values && (count =? param_count sys) then
    let k := py_join ":" values in
    let seen := default [] (contexts sys !! k) in
    (true, {| dimensions := dimensions sys;
              param_count := param_count sys;
              contexts := <[k := (seen ++ [(parameters, fitness)])%list]> (contexts sys) |})
  else (false, sys).

(** Modelled from the spec: [evocore_context_count] (C, missing), the
    number of contexts with data. *)
Definition count (sys : context_system) : Z :=
  Z.of_nat (size (contexts sys)).

Section Sampler.
(** The numeric kernel of sampling with data (the blend of learned mean and
    seeded offset): a deterministic function of the experiences, the
    exploration factor and the seed, returning the new seed. *)
Variable blend : list (list float * float) -> Z -> float -> Z -> list float * Z.
(** The struct that [evocore_meta_params_init] fills in. *)
Variable defaults : evocore_meta_params_t.

(** Modelled from the spec: [evocore_context_sample] (C, missing), which
    fails when the context has no data and otherwise samples from what was
    learnt, advancing the caller's seed. *)
Definition sample (sys : context_system) (values : list string)
    (count : Z) (exploration : float) (seed : Z) : bool * list float * Z :=
  match contexts sys !! py_join ":" values with
  | None => (false, [], seed)
  | Some seen =>
      let '(out, seed') := blend seen count exploration seed in
      (true, out, seed')
  end.

(** Modelled from the spec: [evocore_weighted_array_update] (C, missing),
    on an array seen as the updates it has absorbed; it fails on a count
    other than the lengths of its arguments. *)
Definition weighted_array_update
    (arr : list (list float * list float * float))
    (values weights : list float) (count : Z) (global_weight : float)
  : bool * list (list float * list float * float) :=
  if (Z.of_nat (length values) =? count) && (Z.of_nat (length weights) =? count)
  then (true, (arr ++ [(values, weights, global_weight)])%list)
  else (false, arr).

(** C's conversion of a [double] to [size_t], for the values it is defined
    on: the integer part. *)
Definition size_of_double (x : float) : Z :=
  match FloatOps.Prim2SF x with
  | SpecFloat.S754_finite false m e =>
      if 0 <=? e then Z.pos m * 2 ^ e else Z.pos m / 2 ^ (- e)
  | _ => 0
  end.

(** Modelled from the spec: [evocore_meta_params_set] (C, missing): field
    access by name is total, an unknown name is an error
    ([EVOCORE_ERR_INVALID_ARG]) and changes nothing.  The names it knows are
    those of [PARAM_NAMES]. *)
Definition meta_params_set (p : evocore_meta_params_t) (name : string)
    (value : float) : Z * evocore_meta_params_t :=
  if py_in name Params.PARAM_NAMES then
    match Params.find_field name with
    | Some f =>
        let c := match Params.field_type f with
                 | Params.c_double => Params.CDouble value
                 | Params.c_size_t => Params.CSize (size_of_double value)
                 | Params.c_bool => Params.CBool (negb (value =? 0)%float)
                 end in
        (0, Params.store p f c)
    | None => (-4, p)
    end
  else (-4, p).

#[global] Instance reference_lib : evocore_lib := {|
  evocore_context_system_t := context_system;
  evocore_weighted_array_t := list (list float * list float * float);
  evocore_context_learn := learn;
  evocore_context_sample := sample;
  evocore_context_build_key := build_key;
  evocore_context_count := count;
  evocore_weighted_array_update := weighted_array_update;
  evocore_meta_params_init := defaults;
  evocore_meta_params_set := meta_params_set
|}.

(** Modelled from the spec: the member [dimension_count] of a system (C,
    missing), the number of dimensions it was created with. *)
#[global] Instance reference_struct : context_struct reference_lib := {|
  system_dimension_count := fun sys => Z.of_nat (length (dimensions sys))
|}.

End Sampler.
End Reference.

(** ** A stand-in for NumPy's generator

    NumPy's Mersenne Twister is outside the bindings.  This generator walks a
    fixed table; its state is the number of draws made so far.  It is used to
    run the embedded methods on concrete inputs. *)
Module Cycle.

Definition table : list float := [0.25; 0.5; 0.75; 0.125]%float.

Definition draw (g : nat) : float := nth (g mod 4) table 0%float.

Definition uniform (low high : float) (size : nat) (g : nat)
  : list float * nat :=
  (map (fun i => (low + (high - low) * draw (g + i))%float) (seq 0 size),
   (g + size)%nat).

#[global] Instance cycle_numpy : numpy_random := {|
  RandomState := nat;
  np_random_uniform := uniform
|}.

End Cycle.

(** * Properties *)

(** ** Plumbing *)

Lemma returns_not_raises {A : Type} (r : result A) : returns r -> ~ raises r.
Proof. intros [a ->] [e He]. discriminate He. Qed.

Lemma py_in_spec (x : string) (l : list string) : py_in x l = true <-> x ∈ l.
Proof.
  unfold py_in. rewrite existsb_exists, list_elem_of_In. split.
  - intros (y & Hy & Heq). apply String.eqb_eq in Heq. now subst.
  - intros Hx. exists x. split; [assumption | apply String.eqb_refl].
Qed.

Lemma py_in_false (x : string) (l : list string) : py_in x l = false <-> x ∉ l.
Proof.
  rewrite <- py_in_spec. destruct (py_in x l); split; congruence.
Qed.

Lemma check_error_raises (code : Z) : code < 0 -> raises (check_error code).
Proof.
  intros Hneg. unfold check_error.
  destruct (0 <=? code) eqn:Hc; [apply Z.leb_le in Hc; lia |].
  destruct (_ERROR_MAP code); eexists; reflexivity.
Qed.

Lemma check_error_returns (code : Z) : 0 <= code -> check_error code = Ok tt.
Proof.
  intros Hpos. unfold check_error.
  destruct (0 <=? code) eqn:Hc; [reflexivity | apply Z.leb_gt in Hc; lia].
Qed.

(** The length tests of the methods, as propositions. *)
Lemma length_test_false (a b : nat) : negb (a =? b)%nat = false <-> a = b.
Proof.
  rewrite negb_false_iff. apply Nat.eqb_eq.
Qed.

Lemma length_test_true (a b : nat) : negb (a =? b)%nat = true <-> a <> b.
Proof.
  rewrite negb_true_iff. apply Nat.eqb_neq.
Qed.

(** ** ContextSystem.validate_context *)
Section ValidateContext.
Context {lib : evocore_lib}.

(** The loop never indexes past the end of a context that has a value for
    each dimension still to visit, and answers whether each of those values
    is allowed. *)
Lemma validate_loop_spec (context : list string)
    (dims : list (string * list string)) (i : nat) :
  (i + length dims <= length context)%nat ->
  exists b : bool,
    Context.validate_loop context i dims = Ok b /\
    (b = true <->
     forall (j : nat) (c : string) (d : string * list string),
       context !! (i + j)%nat = Some c -> dims !! j = Some d -> c ∈ d.2).
Proof.
  revert i. induction dims as [| [name valid_values] rest IH]; intros i Hlen.
  - exists true. split; [reflexivity |].
    split; [| reflexivity]. intros _ j c d _ Hd. discriminate Hd.
  - simpl in Hlen. simpl.
    destruct (lookup_lt_is_Some_2 context i) as [c Hc]; [lia |].
    unfold py_index. rewrite Hc. simpl.
    destruct (py_in c valid_values) eqn:Hin; simpl.
    + destruct (IH (S i)) as (b & Hb & Hiff); [lia |].
      exists b. split; [exact Hb |]. rewrite Hiff. split.
      * intros Hrest [| j] c' d Hc' Hd.
        -- rewrite Nat.add_0_r in Hc'. simpl in Hd.
           assert (c' = c) by congruence. subst c'.
           inversion Hd; subst d. simpl. now apply py_in_spec.
        -- simpl in Hd. apply (Hrest j c' d); [| exact Hd].
           now replace (S i + j)%nat with (i + S j)%nat by lia.
      * intros Hall j c' d Hc' Hd. apply (Hall (S j) c' d); [| exact Hd].
        now replace (i + S j)%nat with (S i + j)%nat by lia.
    + exists false. split; [reflexivity |].
      split; [discriminate |]. intros Hall. exfalso.
      apply py_in_false in Hin. apply Hin.
      apply (Hall 0%nat c (name, valid_values)); [| reflexivity].
      now rewrite Nat.add_0_r.
Qed.

(** C6. [validate_context] always returns a boolean, never raises, and the
    boolean is [True] exactly when the context has one value per declared
    dimension, each a member of that dimension's declared value set. *)
Theorem validate_context_iff_valid (self : Context.ContextSystem)
    (context : list string) :
  exists b : bool,
    Context.validate_context self context = Ok b /\
    (b = true <-> Context.valid_context self context).
Proof.
  unfold Context.validate_context, Context.valid_context.
  destruct (negb (length context =? length (Context._dimensions self))%nat) eqn:Hlen.
  - exists false. split; [reflexivity |].
    apply length_test_true in Hlen. split; [discriminate |].
    intros [Heq _]. contradiction.
  - apply length_test_false in Hlen.
    destruct (validate_loop_spec context (Context._dimensions self) 0) as (b & Hb & Hiff);
      [simpl; lia |].
    exists b. split; [exact Hb |]. rewrite Hiff. simpl. split.
    + intros Hall. split; [exact Hlen | exact Hall].
    + intros [_ Hall]. exact Hall.
Qed.

End ValidateContext.

(** ** ProgressReporter.report *)
Section ReportCadence.

Lemma due_iff {World : Type} (self : @Stats.ProgressReporter World)
    (stats : Stats.Stats) :
  Stats.due self stats = true <->
  Stats.generation stats - Stats._last_reported self >= Stats._every_n self.
Proof.
  unfold Stats.due. rewrite Z.geb_le. lia.
Qed.

Lemma report_unfold {World : Type} (self : @Stats.ProgressReporter World)
    (stats : Stats.Stats) (w : World) :
  Stats.report self stats w =
  if Stats.due self stats
  then (Stats.set_last_reported self (Stats.generation stats),
        Stats._callback self stats w)
  else (self, w).
Proof. reflexivity. Qed.

(** With the recording callback, a run of [report] calls appends to the
    record only snapshots that keep it spaced, whatever was reported last. *)
Lemma report_all_spaced (snapshots : list Stats.Stats) :
  forall (self : @Stats.ProgressReporter (list Stats.Stats))
         (seen : list Stats.Stats),
    Stats._callback self = Stats.recorder ->
    exists new : list Stats.Stats,
      (Stats.report_all self snapshots seen).2 = (seen ++ new)%list /\
      Stats.spaced (Stats._every_n self) (Stats._last_reported self) new.
Proof.
  induction snapshots as [| stats rest IH]; intros self seen Hcb.
  - exists []. simpl. split; [now rewrite app_nil_r | exact I].
  - simpl. rewrite report_unfold.
    destruct (Stats.due self stats) eqn:Hdue.
    + destruct (IH (Stats.set_last_reported self (Stats.generation stats))
                   (Stats._callback self stats seen)) as (new & Hnew & Hsp);
        [exact Hcb |].
      exists (stats :: new). split.
      * rewrite Hnew, Hcb. unfold Stats.recorder.
        now rewrite <- app_assoc.
      * simpl. split; [now apply due_iff | exact Hsp].
    + destruct (IH self seen Hcb) as (new & Hnew & Hsp).
      exists new. split; assumption.
Qed.

(** C8. [report] invokes the callback exactly when the generation of the
    snapshot is at least [every_n] past the last reported one, which is -1
    for a new reporter; an invocation records that generation, a skipped
    call changes nothing; hence in any run of [report] calls on a new
    reporter the recorded invocations are at least [every_n] generations
    apart. *)
Theorem report_cadence :
  (forall (World : Type) (callback : Stats.Stats -> World -> World)
          (every_n : Z) (verbose : bool),
      Stats._last_reported (Stats.init callback every_n verbose) = -1) /\
  (forall (World : Type) (self : @Stats.ProgressReporter World)
          (stats : Stats.Stats) (w : World),
      (Stats.due self stats = true <->
       Stats.generation stats - Stats._last_reported self >= Stats._every_n self) /\
      Stats.report self stats w =
      (if Stats.due self stats
       then (Stats.set_last_reported self (Stats.generation stats),
             Stats._callback self stats w)
       else (self, w)) /\
      Stats._last_reported (Stats.set_last_reported self (Stats.generation stats))
      = Stats.generation stats) /\
  (forall (every_n : Z) (verbose : bool) (snapshots : list Stats.Stats),
      Stats.spaced every_n (-1)
        (Stats.report_all (Stats.init Stats.recorder every_n verbose) snapshots []).2).
Proof.
  split; [reflexivity |]. split.
  - intros World self stats w. split; [apply due_iff |].
    split; [apply report_unfold | reflexivity].
  - intros every_n verbose snapshots.
    destruct (report_all_spaced snapshots
                (Stats.init Stats.recorder every_n verbose) [] eq_refl)
      as (new & Hnew & Hsp).
    rewrite Hnew. exact Hsp.
Qed.

(** The cadence on a concrete run: reports every 5 generations pick the
    snapshots of generations 4, 9 and 20 out of 0..9 and 20. *)
Definition snapshot (gen : Z) : Stats.Stats :=
  {| Stats.generation := gen; Stats.total_generations := 100;
     Stats.best_fitness := 0; Stats.avg_fitness := 0; Stats.worst_fitness := 0;
     Stats.fitness_stddev := 0; Stats.fitness_improvement := 0;
     Stats.is_converged := false; Stats.is_stagnant := false;
     Stats.stagnant_generations := 0; Stats.diversity := 0;
     Stats.diversity_trend := 0; Stats.generation_time_ms := 0;
     Stats.total_time_ms := 0; Stats.avg_eval_time_ms := 0;
     Stats.evaluation_count := 0; Stats.mutation_count := 0;
     Stats.crossover_count := 0; Stats.memory_used := 0;
     Stats.peak_memory := 0 |}.

Example report_every_5 :
  map Stats.generation
      (Stats.report_all (Stats.init Stats.recorder 5 false)
         (map snapshot [0; 1; 2; 3; 4; 5; 6; 7; 8; 9; 20]) []).2
  = [4; 9; 20].
Proof. reflexivity. Qed.

End ReportCadence.

(** ** ConfigEntry.as_bool *)

(** [str.lower] restricted to what it does on ASCII text. *)
#[global] Instance ascii_str : python_str := {| str_lower := ascii_lower_string |}.

Lemma ascii_str_lower_contract : lower_contract ascii_str.
Proof. intros s _. reflexivity. Qed.

Section AsBool.
Context {py : python_str}.

(** C10. [as_bool] never raises; it returns [True] exactly when the
    lowercased value is one of ['true', '1', 'yes', 'on'], and [False] for
    every other value, the empty string among them. *)
Theorem as_bool_iff_truthy_word (Hlower : lower_contract py)
    (self : Config.ConfigEntry) :
  exists b : bool,
    Config.as_bool self = Ok b /\
    (b = true <->
     str_lower (Config.value self) ∈ ["true"; "1"; "yes"; "on"]) /\
    (b = false <->
     str_lower (Config.value self) ∉ ["true"; "1"; "yes"; "on"]) /\
    (Config.value self = "" -> b = false).
Proof.
  unfold Config.as_bool. eexists. split; [reflexivity |].
  split; [apply py_in_spec |]. split; [apply py_in_false |].
  intros Hempty. rewrite Hempty, (Hlower "" eq_refl). reflexivity.
Qed.

End AsBool.

Definition entry (value : string) : Config.ConfigEntry :=
  {| Config.key := "enabled"; Config.value := value; Config.type_ := Config.BOOL |}.

Example as_bool_examples :
  map (fun v => Config.as_bool (entry v))
      ["true"; "TRUE"; "Yes"; "oN"; "1"; "0"; "false"; ""; " true"; "y"]
  = map Ok [true; true; true; true; true; false; false; false; false; false].
Proof. reflexivity. Qed.

Lemma as_bool_iff_truthy_word_witness :
  lower_contract ascii_str /\
  exists b : bool,
    Config.as_bool (entry "Yes") = Ok b /\
    (b = true <->
     str_lower (Config.value (entry "Yes")) ∈ ["true"; "1"; "yes"; "on"]) /\
    (b = false <->
     str_lower (Config.value (entry "Yes")) ∉ ["true"; "1"; "yes"; "on"]) /\
    (Config.value (entry "Yes") = "" -> b = false).
Proof.
  split; [exact ascii_str_lower_contract |].
  exact (as_bool_iff_truthy_word ascii_str_lower_contract (entry "Yes")).
Defined.

(** ** Concrete inputs

    A library instance and objects on which the embedded methods are run:
    the reference model, with a sampling kernel that returns the parameters
    learnt last and steps the seed. *)
Module Demo.

Definition latest (seen : list (list float * float)) (count : Z)
    (exploration : float) (seed : Z) : list float * Z :=
  (match last seen with
   | Some (parameters, _) => parameters
   | None => []
   end,
   (seed * 1103515245 + 12345) mod 2 ^ 32).

Definition defaults : evocore_meta_params_t :=
  {| optimization_mutation_rate := 0.05;
     variance_mutation_rate := 0.15;
     experimentation_rate := 0.05;
     elite_protection_ratio := 0.1;
     culling_ratio := 0.25;
     fitness_threshold_for_breeding := 0;
     target_population_size := 500;
     min_population_size := 50;
     max_population_size := 2000;
     learning_rate := 0.1;
     exploration_factor := 0.3;
     confidence_threshold := 0.7;
     profitable_optimization_ratio := 0.8;
     profitable_random_ratio := 0.05;
     losing_optimization_ratio := 0.5;
     losing_random_ratio := 0.25;
     meta_mutation_rate := 0.05;
     meta_learning_rate := 0.1;
     meta_convergence_threshold := 0.001;
     negative_learning_enabled := true;
     negative_penalty_weight := 0.5;
     negative_decay_rate := 0.01;
     negative_capacity := 1000;
     negative_similarity_threshold := 0.8;
     negative_forbidden_threshold := 0.9 |}.

#[global] Instance lib : evocore_lib := Reference.reference_lib latest defaults.

#[global] Instance layout : context_struct lib :=
  Reference.reference_struct latest defaults.

(** [ContextSystem([("asset", ["BTC", "ETH"])], param_count=3)]. *)
Definition assets : Context.ContextSystem :=
  {| Context._system :=
       Reference.context_system_create [("asset", ["BTC"; "ETH"])] 3;
     Context._dimensions := [("asset", ["BTC"; "ETH"])];
     Context._param_count := 3 |}.

(** [WeightedArray(param_count=3)]. *)
Definition triple : Weighted.WeightedArray :=
  {| Weighted._array := []; Weighted._count := 3 |}.

End Demo.

(** ** ContextSystem.learn and WeightedArray.update on mismatched lengths *)
Section Mismatch.
Context {lib : evocore_lib}.

Lemma learn_mismatch (self : Context.ContextSystem) (context : list string)
    (parameters : list float) (fitness : float) :
  length context <> length (Context._dimensions self) \/
  length parameters <> Context._param_count self ->
  Context.learn self context parameters fitness = (Raise ValueError, self).
Proof.
  intros Hbad. unfold Context.learn.
  destruct (negb (length context =? length (Context._dimensions self))%nat) eqn:Hc;
    [reflexivity |].
  destruct (negb (length parameters =? Context._param_count self)%nat) eqn:Hp;
    [reflexivity |].
  apply length_test_false in Hc, Hp. destruct Hbad; contradiction.
Qed.

Lemma update_mismatch (self : Weighted.WeightedArray) (values : list float)
    (weights : option (list float)) (global_weight : float) :
  length values <> Weighted._count self \/
  (exists w, weights = Some w /\ length w <> Weighted._count self) ->
  Weighted.update self values weights global_weight = (Raise ValueError, self).
Proof.
  intros Hbad. unfold Weighted.update.
  destruct (negb (length values =? Weighted._count self)%nat) eqn:Hv;
    [reflexivity |].
  apply length_test_false in Hv.
  destruct Hbad as [Hne | (w & -> & Hne)]; [contradiction |].
  apply length_test_true in Hne. now rewrite Hne.
Qed.

(** C4. [learn] raises [ValueError] whenever the context has not one value
    per dimension or the parameter vector has not [param_count] entries, and
    then returns the system as it was: the library was not called, so no
    statistics were created and [context_count] is what it was.  Likewise
    [WeightedArray.update] on a values or weights length other than the
    array's count. *)
Theorem length_mismatch_raises_unchanged
    (self : Context.ContextSystem) (context : list string)
    (parameters : list float) (fitness : float)
    (arr : Weighted.WeightedArray) (values : list float)
    (weights : option (list float)) (global_weight : float)
    (Hlearn : length context <> length (Context._dimensions self) \/
              length parameters <> Context._param_count self)
    (Hupdate : length values <> Weighted._count arr \/
               exists w, weights = Some w /\ length w <> Weighted._count arr) :
  (Context.learn self context parameters fitness).1 = Raise ValueError /\
  (Context.learn self context parameters fitness).2 = self /\
  Context.context_count (Context.learn self context parameters fitness).2
  = Context.context_count self /\
  Weighted.update arr values weights global_weight = (Raise ValueError, arr).
Proof.
  rewrite (learn_mismatch self context parameters fitness Hlearn). simpl.
  repeat split. now apply update_mismatch.
Qed.

End Mismatch.

Lemma length_mismatch_raises_unchanged_witness :
  (Context.learn Demo.assets ["BTC"] [0.1; 0.2]%float 0.9%float).1
  = Raise ValueError /\
  (Context.learn Demo.assets ["BTC"] [0.1; 0.2]%float 0.9%float).2 = Demo.assets /\
  Context.context_count
    (Context.learn Demo.assets ["BTC"] [0.1; 0.2]%float 0.9%float).2
  = Context.context_count Demo.assets /\
  Weighted.update Demo.triple [0.1; 0.2; 0.3]%float (Some [1; 1]%float) 1%float
  = (Raise ValueError, Demo.triple).
Proof.
  apply (length_mismatch_raises_unchanged
           Demo.assets ["BTC"] [0.1; 0.2]%float 0.9%float
           Demo.triple [0.1; 0.2; 0.3]%float (Some [1; 1]%float) 1%float).
  - right. simpl. lia.
  - right. exists [1; 1]%float. split; [reflexivity | simpl; lia].
Defined.

(** ** ContextSystem.sample *)

(** A seed that cffi can store in an [unsigned int]; [None] stands for 0. *)
Definition seed_fits (seed : option Z) : Prop :=
  0 <= default 0 seed <= UINT_MAX.

Lemma to_unsigned_int_fits (seed : option Z) :
  seed_fits seed -> to_unsigned_int (default 0 seed) = Ok (default 0 seed).
Proof.
  unfold seed_fits, to_unsigned_int. intros [Hlo Hhi].
  apply Z.leb_le in Hlo, Hhi. now rewrite Hlo, Hhi.
Qed.

Section Sample.
Context {lib : evocore_lib} {np : numpy_random}.

(** The library's answer to [sample] for this context: [False] is what the
    method reads as "no data". *)
Definition library_has_data (self : Context.ContextSystem)
    (context : list string) (exploration : float) (seed : option Z) : bool :=
  (evocore_context_sample (Context._system self) context
     (Z.of_nat (Context._param_count self)) exploration (default 0 seed)).1.1.

(** Without data the method returns the next draw of the global generator,
    whatever the seed. *)
Lemma sample_without_data (self : Context.ContextSystem)
    (context : list string) (exploration : float) (seed : option Z)
    (g : RandomState) :
  length context = length (Context._dimensions self) ->
  seed_fits seed ->
  library_has_data self context exploration seed = false ->
  Context.sample self context exploration seed g =
  (Ok (np_random_uniform 0%float 1%float (Context._param_count self) g).1,
   (np_random_uniform 0%float 1%float (Context._param_count self) g).2).
Proof.
  intros Hlen Hseed Hno. unfold Context.sample, library_has_data in *.
  apply length_test_false in Hlen. rewrite Hlen.
  rewrite (to_unsigned_int_fits seed Hseed).
  destruct (evocore_context_sample _ _ _ _ _) as [[success out] seed'].
  simpl in Hno. subst success. simpl.
  now destruct (np_random_uniform _ _ _ g).
Qed.

(** With data the method returns what the library wrote, and neither reads
    nor advances the global generator. *)
Lemma sample_with_data (self : Context.ContextSystem)
    (context : list string) (exploration : float) (seed : option Z)
    (g : RandomState) :
  length context = length (Context._dimensions self) ->
  seed_fits seed ->
  library_has_data self context exploration seed = true ->
  Context.sample self context exploration seed g =
  (Ok (Context.read_doubles
         (evocore_context_sample (Context._system self) context
            (Z.of_nat (Context._param_count self)) exploration
            (default 0 seed)).1.2
         (Context._param_count self)), g).
Proof.
  intros Hlen Hseed Hyes. unfold Context.sample, library_has_data in *.
  apply length_test_false in Hlen. rewrite Hlen.
  rewrite (to_unsigned_int_fits seed Hseed).
  destruct (evocore_context_sample _ _ _ _ _) as [[success out] seed'].
  simpl in Hyes. subst success. reflexivity.
Qed.

Lemma read_doubles_length (written : list float) (n : nat) :
  length (Context.read_doubles written n) = n.
Proof.
  unfold Context.read_doubles. now rewrite length_map, length_seq.
Qed.

(** C3. For a valid context for which the library has no data, [sample]
    does not raise: it returns the draw of [np.random.uniform(0, 1,
    param_count)], a vector of [param_count] entries, each in [[0, 1)]. *)
Theorem sample_without_data_is_uniform (Hnp : uniform_contract np)
    (self : Context.ContextSystem) (context : list string)
    (exploration : float) (seed : option Z) (g : RandomState)
    (Hvalid : Context.valid_context self context)
    (Hseed : seed_fits seed)
    (Hno : library_has_data self context exploration seed = false) :
  exists draw : list float,
    (Context.sample self context exploration seed g).1 = Ok draw /\
    draw = (np_random_uniform 0%float 1%float (Context._param_count self) g).1 /\
    length draw = Context._param_count self /\
    Forall in_unit_interval draw.
Proof.
  destruct Hvalid as [Hlen _].
  rewrite (sample_without_data self context exploration seed g Hlen Hseed Hno).
  eexists. split; [reflexivity |]. split; [reflexivity |].
  apply (Hnp (Context._param_count self) g).
Qed.

End Sample.

(** The table generator meets NumPy's contract for [uniform(0, 1, size)]. *)
Lemma cycle_draw_in_unit (k : nat) :
  in_unit_interval (0 + (1 - 0) * Cycle.draw k)%float.
Proof.
  unfold Cycle.draw.
  assert (Hk : (k mod 4 < 4)%nat) by (apply Nat.mod_upper_bound; lia).
  destruct (k mod 4)%nat as [| [| [| [| n]]]]; [| | | | lia];
    split; vm_compute; reflexivity.
Qed.

Lemma cycle_uniform_contract : uniform_contract Cycle.cycle_numpy.
Proof.
  intros size g. simpl. unfold Cycle.uniform. simpl. split.
  - now rewrite length_map, length_seq.
  - apply Forall_map, Forall_forall. intros i _. apply cycle_draw_in_unit.
Qed.

Lemma sample_without_data_is_uniform_witness :
  uniform_contract Cycle.cycle_numpy /\
  Context.valid_context Demo.assets ["BTC"] /\
  seed_fits (Some 42) /\
  library_has_data Demo.assets ["BTC"] 0.5%float (Some 42) = false /\
  exists draw : list float,
    (Context.sample Demo.assets ["BTC"] 0.5%float (Some 42) 0%nat).1 = Ok draw /\
    draw = (np_random_uniform 0%float 1%float
              (Context._param_count Demo.assets) 0%nat).1 /\
    length draw = Context._param_count Demo.assets /\
    Forall in_unit_interval draw.
Proof.
  assert (Hvalid : Context.valid_context Demo.assets ["BTC"]).
  { split; [reflexivity |]. intros [| i] c d Hc Hd; [| discriminate Hc].
    inversion Hc; subst c. inversion Hd; subst d. simpl. set_solver. }
  assert (Hseed : seed_fits (Some 42)) by (unfold seed_fits, UINT_MAX; simpl; lia).
  assert (Hno : library_has_data Demo.assets ["BTC"] 0.5%float (Some 42) = false)
    by reflexivity.
  split; [exact cycle_uniform_contract |].
  split; [exact Hvalid |]. split; [exact Hseed |]. split; [exact Hno |].
  exact (sample_without_data_is_uniform cycle_uniform_contract Demo.assets
           ["BTC"] 0.5%float (Some 42) 0%nat Hvalid Hseed Hno).
Defined.

(** C1. The determinism that [sample] owes to its seed fails on the path
    taken without data.  On a system that has learnt nothing, two successive
    calls with the same context, exploration and seed return different
    vectors: each is the next draw of NumPy's global generator, which the
    first call has advanced; changing the seed instead changes nothing. *)
Theorem sample_without_data_not_seeded :
  let first := Context.sample Demo.assets ["BTC"] 0.5%float (Some 42) 0%nat in
  let second := Context.sample Demo.assets ["BTC"] 0.5%float (Some 42) first.2 in
  let other := Context.sample Demo.assets ["BTC"] 0.5%float (Some 7) 0%nat in
  first.1 = Ok [0.25; 0.5; 0.75]%float /\
  second.1 = Ok [0.125; 0.25; 0.5]%float /\
  first.1 <> second.1 /\
  other.1 = first.1.
Proof.
  vm_compute. repeat split. discriminate.
Qed.

(** ** Strings at the cffi boundary *)

Lemma c_str_nul_free (s : string) : nul_free s = true -> c_str s = s.
Proof.
  induction s as [| c s IH]; simpl; [reflexivity |].
  intros H. apply andb_true_iff in H. destruct H as [Hc Hs].
  apply negb_true_iff in Hc. rewrite Hc. now rewrite IH.
Qed.

Lemma first_bytes_all (n : nat) :
  forall s : string, (String.length s <= n)%nat -> first_bytes n s = s.
Proof.
  induction n as [| n IH]; intros [| c s] Hlen; simpl in *;
    try reflexivity; try lia.
  f_equal. apply IH. lia.
Qed.

Lemma nul_free_app (a b : string) :
  nul_free (a ++ b) = nul_free a && nul_free b.
Proof.
  induction a as [| c a IH]; simpl; [reflexivity |].
  rewrite IH. now rewrite andb_assoc.
Qed.

Lemma utf8_run_app (a b : string) :
  forall st : utf8_state, utf8_run st (a ++ b) = utf8_run (utf8_run st a) b.
Proof. induction a as [| c a IH]; intros st; simpl; [reflexivity | apply IH]. Qed.

(** Valid UTF-8 followed by valid UTF-8 is valid UTF-8. *)
Lemma utf8_valid_app (a b : string) :
  utf8_valid a = true -> utf8_valid b = true -> utf8_valid (a ++ b) = true.
Proof.
  unfold utf8_valid. rewrite utf8_run_app.
  destruct (utf8_run utf8_start a); try discriminate. now intros _.
Qed.

Lemma c_text_app (a b : string) : c_text a -> c_text b -> c_text (a ++ b).
Proof.
  intros [Ha1 Ha2] [Hb1 Hb2]. split.
  - now apply utf8_valid_app.
  - now rewrite nul_free_app, Ha2, Hb2.
Qed.

Lemma py_join_cons (sep x y : string) (rest : list string) :
  py_join sep (x :: y :: rest) = (x ++ sep ++ py_join sep (y :: rest))%string.
Proof. reflexivity. Qed.

(** The join of values that cross the boundary unchanged does too. *)
Lemma py_join_text (l : list string) : Forall c_text l -> c_text (py_join ":" l).
Proof.
  induction l as [| x [| y rest] IH]; intros Hall.
  - now split.
  - now inversion Hall.
  - rewrite py_join_cons. inversion Hall as [| ? ? Hx Hrest]; subst.
    apply c_text_app; [exact Hx |]. apply c_text_app; [now split | now apply IH].
Qed.

Lemma encode_all_text (l : list string) :
  Forall (fun c => utf8_valid c = true) l -> encode_all l = Ok l.
Proof.
  induction 1 as [| c rest Hc _ IH]; [reflexivity |].
  simpl. unfold py_encode. rewrite Hc. simpl. now rewrite IH.
Qed.

Lemma encode_all_raises (l : list string) :
  ~ Forall (fun c => utf8_valid c = true) l -> encode_all l = Raise ValueError.
Proof.
  induction l as [| c rest IH]; intros Hbad.
  - exfalso. apply Hbad. constructor.
  - simpl. unfold py_encode. destruct (utf8_valid c) eqn:Hc; [| reflexivity].
    simpl. rewrite IH; [reflexivity |].
    intros Hrest. apply Hbad. now constructor.
Qed.

Lemma map_c_str_text (l : list string) : Forall c_text l -> map c_str l = l.
Proof.
  induction 1 as [| c rest [_ Hc] _ IH]; [reflexivity |].
  simpl. now rewrite (c_str_nul_free c Hc), IH.
Qed.

Lemma c_text_encodable (l : list string) :
  Forall c_text l -> Forall (fun c => utf8_valid c = true) l.
Proof. intros Hall. eapply Forall_impl; [exact Hall |]. now intros c [Hc _]. Qed.

(** The codec on a few byte strings: two-, three- and four-byte code points
    are accepted; a lone Latin-1 byte, an overlong form, a surrogate and a
    code point past U+10FFFF are refused. *)
Definition bytes_of (codes : list nat) : string :=
  fold_right (fun n rest => String (ascii_of_nat n) rest) "" codes.

Example utf8_valid_examples :
  utf8_valid "BTC:1h" = true /\
  utf8_valid (bytes_of [195; 169]%nat) = true /\
  utf8_valid (bytes_of [226; 130; 172]%nat) = true /\
  utf8_valid (bytes_of [240; 159; 152; 128]%nat) = true /\
  utf8_valid (bytes_of [233]%nat) = false /\
  utf8_valid (bytes_of [192; 128]%nat) = false /\
  utf8_valid (bytes_of [237; 160; 128]%nat) = false /\
  utf8_valid (bytes_of [244; 144; 128; 128]%nat) = false /\
  utf8_valid (bytes_of [226; 130]%nat) = false /\
  c_str (bytes_of [66; 84; 67; 0; 120]%nat) = "BTC".
Proof. vm_compute. repeat split. Qed.

(** ** ContextSystem.build_key *)

(** The string has no [':']. *)
Fixpoint colon_free (s : string) : bool :=
  match s with
  | EmptyString => true
  | String c rest => negb (Ascii.eqb c ":") && colon_free rest
  end.

(** The value has no separator in it and crosses the cffi boundary
    unchanged: it can be encoded and has no NUL. *)
Definition plain_value (v : string) : bool :=
  colon_free v && utf8_valid v && nul_free v.

(** Every declared value of the system is plain. *)
Definition plain_values (dims : list (string * list string)) : Prop :=
  forall (d : string * list string) (v : string),
    d ∈ dims -> v ∈ d.2 -> plain_value v = true.

(** The object and its C system have the same number of dimensions, as
    after [__init__], which hands [len(dimensions)] to
    [evocore_context_system_create].  Then a context that passes the length
    test of a method fills all the entries of [dimension_values] that the
    library reads.  A system that [load_json] or [load_binary] returns for a
    file saved with dimensions does not agree: its [_dimensions] is
    empty. *)
Definition dimensions_agree {lib : evocore_lib} {layout : context_struct lib}
    (self : Context.ContextSystem) : Prop :=
  system_dimension_count (Context._system self)
  = Z.of_nat (length (Context._dimensions self)).

(** What the specification says of the key the library builds: when it
    builds one, it is the concatenation of the values it was handed, in
    order, with the separator between them, and it fits the caller's buffer
    with its terminator. *)
Definition build_key_contract (lib : evocore_lib) : Prop :=
  forall (sys : evocore_context_system_t) (values : list string)
         (key_size : Z) (k : string),
    evocore_context_build_key sys values key_size = (true, k) ->
    k = py_join ":" values /\ Z.of_nat (String.length k) < key_size.

(** Two colon-free heads followed by a colon split a string the same way. *)
Lemma colon_split (a b r1 r2 : string) :
  colon_free a = true -> colon_free b = true ->
  (a ++ ":" ++ r1)%string = (b ++ ":" ++ r2)%string ->
  a = b /\ r1 = r2.
Proof.
  revert b. induction a as [| c a IH]; intros [| c' b] Ha Hb Heq; simpl in *.
  - inversion Heq. now split.
  - inversion Heq; subst c'. rewrite Ascii.eqb_refl in Hb. discriminate Hb.
  - inversion Heq; subst c. rewrite Ascii.eqb_refl in Ha. discriminate Ha.
  - inversion Heq; subst c'.
    apply andb_true_iff in Ha, Hb. destruct Ha as [_ Ha], Hb as [_ Hb].
    destruct (IH b Ha Hb) as [-> ->]; [assumption | now split].
Qed.

(** Joining with [':'] is injective on tuples of one length whose values
    are colon-free. *)
Lemma py_join_injective (l1 : list string) :
  forall l2 : list string,
    length l1 = length l2 ->
    Forall (fun v => colon_free v = true) l1 ->
    Forall (fun v => colon_free v = true) l2 ->
    py_join ":" l1 = py_join ":" l2 -> l1 = l2.
Proof.
  induction l1 as [| x [| x' r1] IH]; intros [| y [| y' r2]] Hlen H1 H2 Heq;
    try discriminate Hlen; try reflexivity.
  - simpl in Heq. now subst.
  - rewrite !py_join_cons in Heq.
    inversion H1 as [| ? ? Hx H1']; subst. inversion H2 as [| ? ? Hy H2']; subst.
    destruct (colon_split _ _ _ _ Hx Hy Heq) as [-> Hrest].
    f_equal. apply IH; [simpl in *; lia | assumption | assumption | exact Hrest].
Qed.

Lemma plain_value_spec (v : string) :
  plain_value v = true -> colon_free v = true /\ c_text v.
Proof.
  unfold plain_value, c_text. intros H.
  apply andb_true_iff in H. destruct H as [H Hnul].
  apply andb_true_iff in H. destruct H as [Hcolon Hvalid]. now repeat split.
Qed.

Lemma plain_values_by_test (dims : list (string * list string)) :
  forallb (fun d => forallb plain_value d.2) dims = true -> plain_values dims.
Proof.
  intros Htest d v Hd Hv.
  rewrite forallb_forall in Htest. apply list_elem_of_In in Hd.
  specialize (Htest d Hd). rewrite forallb_forall in Htest.
  apply Htest. now apply list_elem_of_In.
Qed.

Section BuildKey.
Context {lib : evocore_lib} {layout : context_struct lib}.

Lemma valid_context_values (self : Context.ContextSystem)
    (context : list string) :
  plain_values (Context._dimensions self) ->
  Context.valid_context self context ->
  Forall (fun v => plain_value v = true) context.
Proof.
  intros Hplain [Hlen Hall]. apply Forall_lookup. intros i v Hv.
  destruct (lookup_lt_is_Some_2 (Context._dimensions self) i) as [d Hd].
  { rewrite <- Hlen. eapply lookup_lt_Some, Hv. }
  apply (Hplain d v); [eapply list_elem_of_lookup_2, Hd | eapply Hall; eassumption].
Qed.

(** The length test comes first. *)
Lemma build_key_wrong_length (self : Context.ContextSystem)
    (context : list string) :
  length context <> length (Context._dimensions self) ->
  Context.build_key self context = Raise ValueError.
Proof.
  intros Hlen. unfold Context.build_key.
  apply length_test_true in Hlen. now rewrite Hlen.
Qed.

(** A value that cannot be encoded stops the method before the library is
    called. *)
Lemma build_key_unencodable (self : Context.ContextSystem)
    (context : list string) :
  length context = length (Context._dimensions self) ->
  ~ Forall (fun c => utf8_valid c = true) context ->
  Context.build_key self context = Raise ValueError.
Proof.
  intros Hlen Hbad. unfold Context.build_key.
  apply length_test_false in Hlen. rewrite Hlen.
  now rewrite (encode_all_raises context Hbad).
Qed.

(** Whatever the library answers, a tuple of the declared length whose
    values can be encoded gets the library's key, decoded, or the fallback's
    when the library refuses. *)
Lemma build_key_encodable (self : Context.ContextSystem) (context : list string) :
  length context = length (Context._dimensions self) ->
  Forall (fun c => utf8_valid c = true) context ->
  Context.build_key self context =
  if (evocore_context_build_key (Context._system self) (map c_str context) 1024).1
  then py_decode
         (ffi_string_array 1024
            (evocore_context_build_key (Context._system self)
                                       (map c_str context) 1024).2)
  else Ok (py_join ":" context).
Proof.
  intros Hlen Henc. unfold Context.build_key.
  apply length_test_false in Hlen. rewrite Hlen.
  rewrite (encode_all_text context Henc). simpl.
  now destruct (evocore_context_build_key _ _ _) as [[|] out].
Qed.

(** With a library that builds its keys as the specification says, the
    library's key and the fallback's are the same string. *)
Lemma build_key_joined (Hkey : build_key_contract lib)
    (self : Context.ContextSystem) (context : list string) :
  length context = length (Context._dimensions self) ->
  Forall c_text context ->
  Context.build_key self context = Ok (py_join ":" context).
Proof.
  intros Hlen Htext.
  rewrite (build_key_encodable self context Hlen (c_text_encodable context Htext)).
  rewrite (map_c_str_text context Htext).
  destruct (evocore_context_build_key _ _ _) as [[|] out] eqn:Hcall; simpl;
    [| reflexivity].
  destruct (Hkey _ _ _ _ Hcall) as [-> Hfits].
  destruct (py_join_text context Htext) as [Hvalid Hnul].
  unfold ffi_string_array. rewrite first_bytes_all by lia.
  rewrite (c_str_nul_free _ Hnul). unfold py_decode. now rewrite Hvalid.
Qed.

(** The claim as stated, in its two halves. *)
Definition build_key_injective_on_valid (self : Context.ContextSystem) : Prop :=
  forall c1 c2 : list string,
    Context.valid_context self c1 -> Context.valid_context self c2 ->
    c1 <> c2 -> Context.build_key self c1 <> Context.build_key self c2.

Definition has_undeclared_value (self : Context.ContextSystem)
    (context : list string) : Prop :=
  exists (i : nat) (v : string) (d : string * list string),
    context !! i = Some v /\ Context._dimensions self !! i = Some d /\ v ∉ d.2.

Definition build_key_rejects_undeclared (self : Context.ContextSystem) : Prop :=
  forall context : list string,
    has_undeclared_value self context -> raises (Context.build_key self context).

(** C2, amended.  On a system that agrees with its C system on the number
    of dimensions and whose declared values are plain (encodable, without
    [':'] and without NUL), [build_key]
    - raises [ValueError] on a tuple whose length is not the dimension
      count, and ([UnicodeEncodeError]) on a tuple of that length with a
      value that cannot be encoded;
    - on every other tuple, declared values or not, is the key the library
      wrote for the C strings of the values, decoded, or, when the library
      refuses, the values joined with [':']: no tuple is rejected for an
      undeclared value;
    - with a library whose keys are the [':']-joined values (the format of
      the specification), is that join on every tuple of the right length
      whose values cross the boundary unchanged, and is injective on valid
      tuples. *)
Theorem build_key_joins (self : Context.ContextSystem)
    (Hagree : dimensions_agree self)
    (Hplain : plain_values (Context._dimensions self)) :
  (forall context : list string,
      length context <> length (Context._dimensions self) ->
      Context.build_key self context = Raise ValueError) /\
  (forall context : list string,
      length context = length (Context._dimensions self) ->
      ~ Forall (fun c => utf8_valid c = true) context ->
      Context.build_key self context = Raise ValueError) /\
  (forall context : list string,
      length context = length (Context._dimensions self) ->
      Forall (fun c => utf8_valid c = true) context ->
      let answer :=
        evocore_context_build_key (Context._system self) (map c_str context) 1024 in
      Context.build_key self context =
      if answer.1 then py_decode (ffi_string_array 1024 answer.2)
      else Ok (py_join ":" context)) /\
  (build_key_contract lib ->
   (forall context : list string,
       length context = length (Context._dimensions self) ->
       Forall c_text context ->
       Context.build_key self context = Ok (py_join ":" context)) /\
   build_key_injective_on_valid self).
Proof.
  split; [apply build_key_wrong_length |].
  split; [apply build_key_unencodable |].
  split; [apply build_key_encodable |].
  intros Hkey. split; [apply (build_key_joined Hkey) |].
  intros c1 c2 Hv1 Hv2 Hne Heq. apply Hne.
  pose proof (valid_context_values self c1 Hplain Hv1) as Hp1.
  pose proof (valid_context_values self c2 Hplain Hv2) as Hp2.
  assert (Hparts : forall c : list string,
             Forall (fun v => plain_value v = true) c ->
             Forall (fun v => colon_free v = true) c /\ Forall c_text c).
  { intros c Hc. split; (eapply Forall_impl; [exact Hc |]);
      intros v Hv; now destruct (plain_value_spec v Hv). }
  destruct (Hparts c1 Hp1) as [Hcolon1 Htext1].
  destruct (Hparts c2 Hp2) as [Hcolon2 Htext2].
  rewrite (build_key_joined Hkey self c1), (build_key_joined Hkey self c2) in Heq;
    [| apply Hv2 | exact Htext2 | apply Hv1 | exact Htext1].
  inversion Heq as [Hj].
  apply py_join_injective;
    [destruct Hv1, Hv2; congruence | exact Hcolon1 | exact Hcolon2 | exact Hj].
Qed.

End BuildKey.

Lemma reference_build_key_contract
    (blend : list (list float * float) -> Z -> float -> Z -> list float * Z)
    (defaults : evocore_meta_params_t) :
  build_key_contract (Reference.reference_lib blend defaults).
Proof.
  intros sys values key_size k. simpl. unfold Reference.build_key.
  destruct (Reference.validate_values _ _); [| discriminate].
  destruct (_ <? key_size) eqn:Hfits; [| discriminate].
  intros Heq. inversion Heq; subst k. split; [reflexivity | now apply Z.ltb_lt].
Qed.

(** [ContextSystem([("asset", ["BTC", "ETH"]), ("timeframe", ["1h", "4h"])],
    param_count=2)]. *)
Definition market : Context.ContextSystem :=
  {| Context._system :=
       Reference.context_system_create
         [("asset", ["BTC"; "ETH"]); ("timeframe", ["1h"; "4h"])] 2;
     Context._dimensions :=
       [("asset", ["BTC"; "ETH"]); ("timeframe", ["1h"; "4h"])];
     Context._param_count := 2 |}.

(** A system whose declared values contain the separator:
    [ContextSystem([("a", ["x", "x:y"]), ("b", ["y:z", "z"])], 1)]. *)
Definition colons : Context.ContextSystem :=
  {| Context._system :=
       Reference.context_system_create
         [("a", ["x"; "x:y"]); ("b", ["y:z"; "z"])] 1;
     Context._dimensions := [("a", ["x"; "x:y"]); ("b", ["y:z"; "z"])];
     Context._param_count := 1 |}.

Lemma valid_context_by_test `{lib : evocore_lib} (self : Context.ContextSystem)
    (context : list string) :
  Reference.validate_values (Context._dimensions self) context = true ->
  Context.valid_context self context.
Proof.
  unfold Context.valid_context. generalize (Context._dimensions self).
  intros dims. revert context.
  induction dims as [| [name allowed] dims IH]; intros [| v context] Hok;
    simpl in Hok; try discriminate Hok.
  - split; [reflexivity |]. intros i c d Hc. discriminate Hc.
  - apply andb_true_iff in Hok. destruct Hok as [Hin Hok].
    destruct (IH context Hok) as [Hlen Hall]. split; [simpl; now rewrite Hlen |].
    intros [| i] c d Hc Hd; simpl in Hc, Hd.
    + inversion Hc; subst c. inversion Hd; subst d. simpl. now apply py_in_spec.
    + eapply Hall; eassumption.
Qed.

(** C2 as stated fails in its second half: a tuple with a value that no
    dimension declares gets a key.  The library refuses the values and the
    method falls back to joining them. *)
Lemma build_key_counterexample :
  ~ build_key_rejects_undeclared market.
Proof.
  intros Hrejects.
  assert (Hbad : has_undeclared_value market ["DOGE"; "1h"]).
  { exists 0%nat, "DOGE", ("asset", ["BTC"; "ETH"]).
    split; [reflexivity |]. split; [reflexivity |].
    simpl. apply py_in_false. reflexivity. }
  destruct (Hrejects ["DOGE"; "1h"] Hbad) as [e He].
  vm_compute in He. discriminate He.
Qed.

(** [build_key] on the two systems.  The values reach the library as C
    strings: what follows a NUL is not part of the key.  Where declared
    values contain the separator, two valid tuples share a key. *)
Example build_key_examples :
  Context.build_key market ["BTC"; "1h"] = Ok "BTC:1h" /\
  Context.build_key market ["DOGE"; "1h"] = Ok "DOGE:1h" /\
  Context.build_key market ["BTC"] = Raise ValueError /\
  Context.build_key Demo.assets [String "B" (String "T" (String "C"
                                   (String Ascii.zero "x")))] = Ok "BTC" /\
  Context.build_key Demo.assets [String (ascii_of_nat 237) (String
                                   (ascii_of_nat 160) (String (ascii_of_nat 128) ""))]
  = Raise ValueError /\
  Context.build_key colons ["x:y"; "z"] = Ok "x:y:z" /\
  Context.build_key colons ["x"; "y:z"] = Ok "x:y:z".
Proof. vm_compute. repeat split. Qed.

Lemma build_key_joins_witness :
  dimensions_agree market /\
  plain_values (Context._dimensions market) /\
  build_key_contract Demo.lib /\
  Context.build_key market ["ETH"] = Raise ValueError /\
  Context.build_key market ["ETH"; "4h"] = Ok "ETH:4h" /\
  Context.build_key market ["DOGE"; "4h"] = Ok "DOGE:4h" /\
  Context.valid_context market ["BTC"; "4h"] /\
  Context.valid_context market ["ETH"; "1h"] /\
  Context.build_key market ["BTC"; "4h"] <> Context.build_key market ["ETH"; "1h"].
Proof.
  assert (Hagree : dimensions_agree market) by reflexivity.
  assert (Hplain : plain_values (Context._dimensions market))
    by (apply plain_values_by_test; reflexivity).
  pose proof (reference_build_key_contract Demo.latest Demo.defaults) as Hkey.
  destruct (build_key_joins market Hagree Hplain)
    as (Hlength & _ & _ & Hjoined).
  destruct (Hjoined Hkey) as [Hjoin Hinj].
  split; [exact Hagree |]. split; [exact Hplain |]. split; [exact Hkey |].
  split; [apply Hlength; simpl; lia |].
  split; [apply Hjoin; [reflexivity | repeat constructor] |].
  split; [apply Hjoin; [reflexivity | repeat constructor] |].
  assert (Hv1 : Context.valid_context market ["BTC"; "4h"])
    by now apply valid_context_by_test.
  assert (Hv2 : Context.valid_context market ["ETH"; "1h"])
    by now apply valid_context_by_test.
  split; [exact Hv1 |]. split; [exact Hv2 |].
  apply Hinj; [exact Hv1 | exact Hv2 | discriminate].
Defined.

(** ** MetaParams: access by name, to_dict and from_dict *)

(** A stored value has the C type of the member that holds it. *)
Definition has_ctype (c : Params.cval) (t : Params.ctype) : Prop :=
  match c, t with
  | Params.CDouble _, Params.c_double => True
  | Params.CSize _, Params.c_size_t => True
  | Params.CBool _, Params.c_bool => True
  | _, _ => False
  end.

Lemma stored_has_ctype (p : evocore_meta_params_t) (f : Params.field) :
  has_ctype (Params.stored p f) (Params.field_type f).
Proof. destruct f; exact I. Qed.

Lemma stored_struct_of (g : Params.field -> Params.cval) (f : Params.field) :
  has_ctype (g f) (Params.field_type f) ->
  Params.stored (Params.struct_of g) f = g f.
Proof.
  destruct f; unfold Params.stored; simpl;
    destruct (g _); simpl; intros H; try contradiction; reflexivity.
Qed.

(** Reading back after an assignment: the assigned member holds the new
    value, every other member its old one. *)
Lemma stored_store (p : evocore_meta_params_t) (f f' : Params.field)
    (c : Params.cval) :
  has_ctype c (Params.field_type f) ->
  Params.stored (Params.store p f c) f' =
  if decide (f' = f) then c else Params.stored p f'.
Proof.
  intros Hc. unfold Params.store. rewrite stored_struct_of; [reflexivity |].
  destruct (decide (f' = f)) as [-> |]; [exact Hc | apply stored_has_ctype].
Qed.

(** A struct is determined by what its members hold. *)
Lemma struct_ext (a b : evocore_meta_params_t) :
  (forall f : Params.field, Params.stored a f = Params.stored b f) -> a = b.
Proof.
  intros H. destruct a, b.
  pose proof (H Params.f_optimization_mutation_rate) as H1.
  pose proof (H Params.f_variance_mutation_rate) as H2.
  pose proof (H Params.f_experimentation_rate) as H3.
  pose proof (H Params.f_elite_protection_ratio) as H4.
  pose proof (H Params.f_culling_ratio) as H5.
  pose proof (H Params.f_fitness_threshold_for_breeding) as H6.
  pose proof (H Params.f_target_population_size) as H7.
  pose proof (H Params.f_min_population_size) as H8.
  pose proof (H Params.f_max_population_size) as H9.
  pose proof (H Params.f_learning_rate) as H10.
  pose proof (H Params.f_exploration_factor) as H11.
  pose proof (H Params.f_confidence_threshold) as H12.
  pose proof (H Params.f_profitable_optimization_ratio) as H13.
  pose proof (H Params.f_profitable_random_ratio) as H14.
  pose proof (H Params.f_losing_optimization_ratio) as H15.
  pose proof (H Params.f_losing_random_ratio) as H16.
  pose proof (H Params.f_meta_mutation_rate) as H17.
  pose proof (H Params.f_meta_learning_rate) as H18.
  pose proof (H Params.f_meta_convergence_threshold) as H19.
  pose proof (H Params.f_negative_learning_enabled) as H20.
  pose proof (H Params.f_negative_penalty_weight) as H21.
  pose proof (H Params.f_negative_decay_rate) as H22.
  pose proof (H Params.f_negative_capacity) as H23.
  pose proof (H Params.f_negative_similarity_threshold) as H24.
  pose proof (H Params.f_negative_forbidden_threshold) as H25.
  clear H. unfold Params.stored in *. simpl in *.
  repeat match goal with
         | E : _ = _ |- _ => injection E as ->
         end.
  reflexivity.
Qed.

Lemma all_fields_complete (f : Params.field) : f ∈ Params.all_fields.
Proof. destruct f; unfold Params.all_fields; set_solver. Qed.

Lemma resolve_field_name (f : Params.field) :
  Params.resolve (Params.field_name f) = Params.Property f.
Proof. destruct f; reflexivity. Qed.

(** What a property returns converts back to what the member holds. *)
Lemma to_ctype_read_field (p : evocore_meta_params_t) (f : Params.field) :
  Params.wf_params p ->
  Params.to_ctype (Params.field_type f) (Params.read_field p f)
  = Ok (Params.stored p f).
Proof.
  intros (H1 & H2 & H3 & H4).
  assert (Hsize : forall n : Z, 0 <= n <= SIZE_MAX -> to_size_t n = Ok n).
  { intros n [Hlo Hhi]. unfold to_size_t.
    apply Z.leb_le in Hlo, Hhi. now rewrite Hlo, Hhi. }
  destruct f; simpl; try reflexivity; unfold Params.stored; simpl;
    now rewrite Hsize.
Qed.

Lemma to_dict_items (self : Params.MetaParams) (p : evocore_meta_params_t) :
  Params._params self = Params.Handle p ->
  Params.to_dict self =
  Ok (map (fun f => (Params.field_name f, Params.read_field p f)) Params.all_fields).
Proof. intros Hp. unfold Params.to_dict. now rewrite Hp. Qed.

Section FromDict.
Context {lib : evocore_lib}.

(** An object whose slots are as [__init__] left them, around struct [q]. *)
Definition around (q : evocore_meta_params_t) : Params.MetaParams :=
  {| Params._params := Params.Handle q;
     Params._ffi := Params.Handle tt;
     Params._lib := Params.Handle tt |}.

(** Assigning, in order, to the properties of [fs] what the same
    properties of [p] return. *)
Definition copy_fields (fs : list Params.field)
    (p q : evocore_meta_params_t) : evocore_meta_params_t :=
  fold_left (fun q f => Params.store q f (Params.stored p f)) fs q.

Lemma from_dict_loop_fields (p : evocore_meta_params_t)
    (Hwf : Params.wf_params p) (fs : list Params.field) :
  forall q : evocore_meta_params_t,
    Params.from_dict_loop (around q)
      (map (fun f => (Params.field_name f, Params.read_field p f)) fs)
    = Ok (around (copy_fields fs p q)).
Proof.
  induction fs as [| f fs IH]; intros q; [reflexivity |].
  simpl. unfold Params.hasattr, Params.setattr.
  rewrite resolve_field_name. simpl.
  unfold Params.set_property. simpl.
  rewrite (to_ctype_read_field p f Hwf). simpl. apply IH.
Qed.

Lemma stored_copy_fields (p : evocore_meta_params_t) (fs : list Params.field)
    (f : Params.field) :
  forall q : evocore_meta_params_t,
    Params.stored (copy_fields fs p q) f =
    if decide (f ∈ fs) then Params.stored p f else Params.stored q f.
Proof.
  induction fs as [| f0 fs IH]; intros q; simpl.
  - destruct (decide (f ∈ [])) as [Hin |]; [inversion Hin | reflexivity].
  - rewrite IH. rewrite stored_store by apply stored_has_ctype.
    destruct (decide (f ∈ fs)) as [Hin | Hnin].
    + rewrite decide_True by (now right). reflexivity.
    + destruct (decide (f = f0)) as [-> | Hne].
      * rewrite decide_True by (now left). reflexivity.
      * rewrite decide_False; [reflexivity |].
        intros Hin. apply elem_of_cons in Hin. tauto.
Qed.

Lemma copy_all_fields (p q : evocore_meta_params_t) :
  copy_fields Params.all_fields p q = p.
Proof.
  apply struct_ext. intros f. rewrite stored_copy_fields.
  now rewrite decide_True by apply all_fields_complete.
Qed.

(** C9. For a [MetaParams] around a struct that C can hold, [to_dict]
    returns a dictionary from which [from_dict] builds, without raising, an
    object around the same struct: its [to_dict] is the same dictionary, so
    every enumerated field has the value it had. *)
Theorem from_dict_to_dict_round_trip (self : Params.MetaParams)
    (p : evocore_meta_params_t)
    (Hself : Params._params self = Params.Handle p)
    (Hwf : Params.wf_params p) :
  exists (d : list (string * Params.pyval)) (self' : Params.MetaParams),
    Params.to_dict self = Ok d /\
    Params.from_dict d = Ok self' /\
    Params._params self' = Params.Handle p /\
    Params.to_dict self' = Ok d.
Proof.
  exists (map (fun f => (Params.field_name f, Params.read_field p f))
              Params.all_fields), (around p).
  split; [now apply to_dict_items |]. split.
  - unfold Params.from_dict. change Params.new with (around evocore_meta_params_init).
    rewrite (from_dict_loop_fields p Hwf). now rewrite copy_all_fields.
  - split; [reflexivity | now apply to_dict_items].
Qed.

(** A key that resolves to no attribute is skipped by the loop. *)
Lemma from_dict_loop_skips (name : string) (value : Params.pyval)
    (d2 : list (string * Params.pyval)) (d1 : list (string * Params.pyval)) :
  Params.resolve name = Params.NoAttribute ->
  forall params : Params.MetaParams,
    Params.from_dict_loop params (d1 ++ (name, value) :: d2)
    = Params.from_dict_loop params (d1 ++ d2).
Proof.
  intros Hname. induction d1 as [| [n v] d1 IH]; intros params; simpl.
  - unfold Params.hasattr. now rewrite Hname.
  - destruct (Params.hasattr params n); [| apply IH].
    destruct (Params.setattr params n v) as [params' | e]; simpl;
      [apply IH | reflexivity].
Qed.

(** [set] on a name that can be encoded: the library is handed the C
    string of the name, its return code goes through [check_error], and the
    object keeps the struct as the library left it. *)
Lemma set_encodable (p : evocore_meta_params_t) (name : string) (value : float) :
  utf8_valid name = true ->
  Params.set (around p) name value =
  (check_error (evocore_meta_params_set p (c_str name) value).1,
   around (evocore_meta_params_set p (c_str name) value).2).
Proof.
  intros Hname. unfold Params.set, py_encode. simpl. rewrite Hname.
  now destruct (evocore_meta_params_set p (c_str name) value) as [err p'].
Qed.

Lemma check_error_raises_iff (code : Z) : raises (check_error code) <-> code < 0.
Proof.
  split; [| apply check_error_raises].
  intros [e He]. destruct (Z.lt_ge_cases code 0) as [Hneg | Hpos]; [exact Hneg |].
  rewrite (check_error_returns code Hpos) in He. discriminate He.
Qed.

(** The second half of the claim as stated: [from_dict] reports an error
    for a dictionary with a key that names no field. *)
Definition from_dict_rejects_unknown : Prop :=
  forall (d : list (string * Params.pyval)) (name : string) (value : Params.pyval),
    (name, value) ∈ d -> Params.find_field name = None ->
    raises (Params.from_dict d).

(** C5, amended.  [set] decides nothing about names itself: it hands the
    name to [evocore_meta_params_set] as a C string, the bytes of the name
    up to its first NUL, and raises exactly when the library answers a
    negative code (or, before the call, when the name cannot be encoded);
    the object then holds the struct as the library left it.  [from_dict]
    skips, without an error, every key that is no attribute of the object:
    the result is that of the dictionary without the key. *)
Theorem set_raises_on_library_error_from_dict_skips :
  (forall (p : evocore_meta_params_t) (name : string) (value : float),
      utf8_valid name = true ->
      let answer := evocore_meta_params_set p (c_str name) value in
      Params.set (around p) name value = (check_error answer.1, around answer.2) /\
      (raises (Params.set (around p) name value).1 <-> answer.1 < 0)) /\
  (forall (p : evocore_meta_params_t) (name : string) (value : float),
      utf8_valid name = false ->
      Params.set (around p) name value = (Raise ValueError, around p)) /\
  (forall (d1 d2 : list (string * Params.pyval)) (name : string)
          (value : Params.pyval),
      Params.resolve name = Params.NoAttribute ->
      Params.from_dict (d1 ++ (name, value) :: d2) = Params.from_dict (d1 ++ d2)).
Proof.
  split; [| split].
  - intros p name value Hname answer. subst answer.
    rewrite (set_encodable p name value Hname). split; [reflexivity |].
    simpl. apply check_error_raises_iff.
  - intros p name value Hname. unfold Params.set, py_encode. simpl.
    now rewrite Hname.
  - intros d1 d2 name value Hname. unfold Params.from_dict.
    now apply from_dict_loop_skips.
Qed.

End FromDict.

(** A struct that differs from the defaults in every member. *)
Definition tuned : evocore_meta_params_t :=
  {| optimization_mutation_rate := 0.125;
     variance_mutation_rate := 0.25;
     experimentation_rate := 0.375;
     elite_protection_ratio := 0.5;
     culling_ratio := 0.625;
     fitness_threshold_for_breeding := 0.75;
     target_population_size := 64;
     min_population_size := 8;
     max_population_size := 512;
     learning_rate := 0.875;
     exploration_factor := 0.0625;
     confidence_threshold := 0.1875;
     profitable_optimization_ratio := 0.3125;
     profitable_random_ratio := 0.4375;
     losing_optimization_ratio := 0.5625;
     losing_random_ratio := 0.6875;
     meta_mutation_rate := 0.8125;
     meta_learning_rate := 0.9375;
     meta_convergence_threshold := 0.03125;
     negative_learning_enabled := false;
     negative_penalty_weight := 1.5;
     negative_decay_rate := 2.5;
     negative_capacity := 7;
     negative_similarity_threshold := 3.5;
     negative_forbidden_threshold := 4.5 |}.

(** A Python value as data that [discriminate] can tell apart. *)
Definition pyval_bits (v : Params.pyval) : SpecFloat.spec_float + Z + bool :=
  match v with
  | Params.PyFloat x => inl (inl (FloatOps.Prim2SF x))
  | Params.PyInt n => inl (inr n)
  | Params.PyBool b => inr b
  end.

Lemma tuned_differs (f : Params.field) :
  Params.read_field tuned f <> Params.read_field Demo.defaults f.
Proof.
  intros Heq. apply (f_equal pyval_bits) in Heq.
  destruct f; vm_compute in Heq; discriminate Heq.
Qed.

Lemma from_dict_to_dict_round_trip_witness :
  Params._params (around tuned) = Params.Handle tuned /\
  Params.wf_params tuned /\
  Params._params Params.new = Params.Handle Demo.defaults /\
  (forall f : Params.field,
      Params.read_field tuned f <> Params.read_field Demo.defaults f) /\
  exists (d : list (string * Params.pyval)) (self' : Params.MetaParams),
    Params.to_dict (around tuned) = Ok d /\
    Params.from_dict d = Ok self' /\
    Params._params self' = Params.Handle tuned /\
    Params.to_dict self' = Ok d.
Proof.
  assert (Hwf : Params.wf_params tuned).
  { unfold Params.wf_params, SIZE_MAX. simpl. lia. }
  split; [reflexivity |]. split; [exact Hwf |]. split; [reflexivity |].
  split; [exact tuned_differs |].
  exact (from_dict_to_dict_round_trip (around tuned) tuned eq_refl Hwf).
Defined.

(** A round trip on a struct other than the defaults: every member set
    through its property, then sent through [to_dict] and [from_dict]. *)
Example round_trip_example :
  let p := Params.store (Params.store Demo.defaults Params.f_learning_rate
                           (Params.CDouble 0.25))
             Params.f_negative_capacity (Params.CSize 7) in
  (d ← Params.to_dict (around p); Params.from_dict d) = Ok (around p) /\
  (d ← Params.to_dict (around tuned); Params.from_dict d) = Ok (around tuned).
Proof. vm_compute. split; reflexivity. Qed.

(** C5 as stated fails for [from_dict]: a dictionary with the unknown key
    ['bogus'] is accepted, the key dropped without an error. *)
Lemma from_dict_unknown_key_counterexample :
  ~ @from_dict_rejects_unknown Demo.lib.
Proof.
  intros Hrejects.
  destruct (Hrejects [("bogus", Params.PyFloat 1)] "bogus" (Params.PyFloat 1))
    as [e He]; [set_solver | reflexivity |].
  vm_compute in He. discriminate He.
Qed.

(** [from_dict] and [set] on the reference library, which answers the names
    of [PARAM_NAMES] and no other.  A name with a NUL reaches the library
    as the bytes before it. *)
Example from_dict_examples :
  Params.from_dict [("bogus", Params.PyFloat 1)] = Ok Params.new /\
  Params.from_dict [("learning_rate", Params.PyFloat 0.25); ("bogus", Params.PyInt 3)]
  = Params.from_dict [("learning_rate", Params.PyFloat 0.25)] /\
  Params.from_dict [("target_population_size", Params.PyFloat 10)]
  = Raise TypeError /\
  Params.from_dict [("validate", Params.PyFloat 1)] = Raise AttributeError /\
  (Params.set (around Demo.defaults) "bogus" 1%float).1
  = Raise (EvocoreInvalidArgumentError (Some (-4))) /\
  (Params.set (around Demo.defaults) "learning_rate" 0.25%float).1 = Ok tt /\
  Params.find_field ("learning_rate" ++ String Ascii.zero "junk") = None /\
  Params.set (around Demo.defaults)
    ("learning_rate" ++ String Ascii.zero "junk") 0.25%float
  = Params.set (around Demo.defaults) "learning_rate" 0.25%float.
Proof. vm_compute. repeat split. Qed.

(** * The rest of the cited modules

    The methods around the ones above: the other entry points of
    [ContextSystem], [WeightedArray], [MetaParams], [ProgressReporter] and
    [Config], the error mapping they share, and the indexing of
    [MetaPopulation], which hands out [MetaParams]. *)

(** ** utils/error.py *)

(** The [code] attribute of an exception: [None] on Python's built-in
    exceptions, the constructor's argument on the [EvocoreError] family. *)
Definition exn_code (e : exn) : option Z :=
  match e with
  | ValueError | IndexError | OverflowError | TypeError | AttributeError => None
  | EvocoreError code | EvocoreNullPointerError code
  | EvocoreOutOfMemoryError code | EvocoreInvalidArgumentError code
  | EvocoreGenomeError code | EvocorePopulationError code
  | EvocoreConfigError code | EvocoreFileError code => code
  end.

(** [isinstance(e, EvocoreError)]. *)
Definition is_evocore_error (e : exn) : bool :=
  match e with
  | ValueError | IndexError | OverflowError | TypeError | AttributeError => false
  | _ => true
  end.

(** The error members of [evocore_error_t], as [_ffi_build.py] declares
    them. *)
Definition evocore_error_codes : list (string * Z) :=
  [ ("EVOCORE_ERR_UNKNOWN", -1); ("EVOCORE_ERR_NULL_PTR", -2);
    ("EVOCORE_ERR_OUT_OF_MEMORY", -3); ("EVOCORE_ERR_INVALID_ARG", -4);
    ("EVOCORE_ERR_NOT_IMPLEMENTED", -5); ("EVOCORE_ERR_GENOME_EMPTY", -10);
    ("EVOCORE_ERR_GENOME_TOO_LARGE", -11); ("EVOCORE_ERR_GENOME_INVALID", -12);
    ("EVOCORE_ERR_POP_EMPTY", -20); ("EVOCORE_ERR_POP_FULL", -21);
    ("EVOCORE_ERR_POP_SIZE", -22); ("EVOCORE_ERR_CONFIG_NOT_FOUND", -30);
    ("EVOCORE_ERR_CONFIG_PARSE", -31); ("EVOCORE_ERR_CONFIG_INVALID", -32);
    ("EVOCORE_ERR_FILE_NOT_FOUND", -40); ("EVOCORE_ERR_FILE_READ", -41);
    ("EVOCORE_ERR_FILE_WRITE", -42) ].

(** The success members of [evocore_error_t]. *)
Definition evocore_success_codes : list (string * Z) :=
  [ ("EVOCORE_OK", 0); ("EVOCORE_SUCCESS_CONVERGED", 1);
    ("EVOCORE_SUCCESS_MAX_GEN", 2) ].

(** [check_bool]. *)
Definition check_bool (outcome : bool) : result unit :=
  if negb outcome then Raise (EvocoreError None) else Ok tt.

(** [check_error] returns for the non-negative codes and only for them; for
    a negative code it raises a member of the [EvocoreError] family that
    carries the code.  Every error the library declares has an entry of its
    own in [_ERROR_MAP], except [EVOCORE_ERR_UNKNOWN], which falls through
    to the plain [EvocoreError]; every success code returns. *)
Theorem check_error_by_sign :
  (forall code : Z, check_error code = Ok tt <-> 0 <= code) /\
  (forall code : Z,
      code < 0 ->
      exists e : exn,
        check_error code = Raise e /\
        is_evocore_error e = true /\ exn_code e = Some code) /\
  (forall (name : string) (code : Z),
      (name, code) ∈ evocore_error_codes ->
      code <> -1 -> is_Some (_ERROR_MAP code)) /\
  check_error (-1) = Raise (EvocoreError (Some (-1))) /\
  (forall (name : string) (code : Z),
      (name, code) ∈ evocore_success_codes -> check_error code = Ok tt).
Proof.
  split; [| split; [| split; [| split]]].
  - intros code. split.
    + unfold check_error. destruct (0 <=? code) eqn:Hc.
      * intros _. now apply Z.leb_le.
      * destruct (_ERROR_MAP code); discriminate.
    + apply check_error_returns.
  - intros code Hneg. unfold check_error.
    destruct (0 <=? code) eqn:Hc; [apply Z.leb_le in Hc; lia |].
    unfold _ERROR_MAP.
    repeat match goal with
           | |- context [if ?b then _ else _] => destruct b
           end; eexists; repeat split.
  - intros name code Hin Hne. unfold evocore_error_codes in Hin.
    repeat (apply elem_of_cons in Hin; destruct Hin as [Hin | Hin];
            [inversion Hin; subst; first [contradiction | now eexists] |]).
    inversion Hin.
  - reflexivity.
  - intros name code Hin. unfold evocore_success_codes in Hin.
    repeat (apply elem_of_cons in Hin; destruct Hin as [Hin | Hin];
            [inversion Hin; subst; reflexivity |]).
    inversion Hin.
Qed.

(** ** learning/context.py, the other entry points *)

(** The further library functions these entry points call: a statistics
    lookup that returns through an out pointer ([None] is [NULL]), and the
    two loaders, which read the files of the machine and return the new
    system through an out pointer. *)
Class context_lib (lib : evocore_lib) : Type := {
  evocore_context_stats_t : Type;
  files : Type;
  (* bool evocore_context_get_stats(system, dimension_values, out_stats) *)
  evocore_context_get_stats :
    evocore_context_system_t -> list string ->
    bool * option evocore_context_stats_t;
  (* bool evocore_context_load_json(filepath, out_system) *)
  evocore_context_load_json :
    files -> string -> bool * option evocore_context_system_t;
  (* bool evocore_context_load_binary(filepath, out_system) *)
  evocore_context_load_binary :
    files -> string -> bool * option evocore_context_system_t;
  (* the member param_count of the evocore_context_system_t *)
  system_param_count : evocore_context_system_t -> Z
}.

Module ContextMore.
Section Methods.
Context {lib : evocore_lib} {clib : context_lib lib}.

(** [ContextSystem.get_stats]: the wrapped pointer, or [None].  The loop
    that encodes the values is left out, as in [Context.learn]. *)
Definition get_stats (self : Context.ContextSystem) (context : list string)
  : result (option evocore_context_stats_t) :=
  if negb (length context =? length (Context._dimensions self))%nat then
    Raise ValueError
  else
    let '(success, stats_ptr) :=
      evocore_context_get_stats (Context._system self) context in
    if negb success then Ok None
    else match stats_ptr with
         | None => Ok None
         | Some p => Ok (Some p)
         end.

(** What [load_json] and [load_binary] build from the loader's answer. *)
Definition loaded (answer : bool * option evocore_context_system_t)
  : result Context.ContextSystem :=
  match answer with
  | (true, Some sys) =>
      Ok {| Context._system := sys;
            Context._dimensions := [];
            Context._param_count := Z.to_nat (system_param_count sys) |}
  | _ => Raise (EvocoreError None)
  end.

(** [ContextSystem.load_json]. *)
Definition load_json (fs : files) (filepath : string)
  : result Context.ContextSystem :=
  loaded (evocore_context_load_json fs filepath).

(** [ContextSystem.load_binary]. *)
Definition load_binary (fs : files) (filepath : string)
  : result Context.ContextSystem :=
  loaded (evocore_context_load_binary fs filepath).

(** A run of [learn] calls, each on the system the one before left. *)
Fixpoint learn_all (self : Context.ContextSystem)
    (calls : list (list string * list float * float)) : Context.ContextSystem :=
  match calls with
  | [] => self
  | (context, parameters, fitness) :: rest =>
      learn_all (Context.learn self context parameters fitness).2 rest
  end.

End Methods.
End ContextMore.

Section ContextEntryPoints.
Context {lib : evocore_lib} {np : numpy_random} {clib : context_lib lib}
        {layout : context_struct lib}.

Lemma validate_context_true_length (self : Context.ContextSystem)
    (context : list string) :
  Context.validate_context self context = Ok true ->
  length context = length (Context._dimensions self).
Proof.
  unfold Context.validate_context.
  destruct (negb (length context =? length (Context._dimensions self))%nat) eqn:Hlen.
  - discriminate.
  - intros _. now apply length_test_false.
Qed.

(** On a system that agrees with its C system on the number of dimensions,
    a context that [validate_context] accepts and whose values cross the
    cffi boundary unchanged is accepted by the methods that take a context:
    [get_stats] returns, [learn] returns when given [param_count]
    parameters, [sample] returns when its seed fits an [unsigned int], and
    [build_key] returns the joined values when the library builds its keys
    as the specification says. *)
Theorem validated_context_is_accepted (self : Context.ContextSystem)
    (context : list string) (parameters : list float) (fitness exploration : float)
    (seed : option Z) (g : RandomState)
    (Hagree : dimensions_agree self)
    (Htext : Forall c_text context)
    (Hvalid : Context.validate_context self context = Ok true)
    (Hparams : length parameters = Context._param_count self)
    (Hseed : seed_fits seed) :
  returns (ContextMore.get_stats self context) /\
  returns (Context.learn self context parameters fitness).1 /\
  returns (Context.sample self context exploration seed g).1 /\
  (build_key_contract lib ->
   Context.build_key self context = Ok (py_join ":" context)).
Proof.
  pose proof (validate_context_true_length self context Hvalid) as Hlen.
  pose proof Hlen as Htest. apply length_test_false in Htest.
  split; [| split; [| split]].
  - unfold ContextMore.get_stats. rewrite Htest.
    destruct (evocore_context_get_stats _ _) as [[|] [p |]]; now eexists.
  - unfold Context.learn. rewrite Htest.
    apply length_test_false in Hparams. rewrite Hparams.
    destruct (evocore_context_learn _ _ _ _ _). now eexists.
  - unfold Context.sample. rewrite Htest.
    rewrite (to_unsigned_int_fits seed Hseed).
    destruct (evocore_context_sample _ _ _ _ _) as [[[|] out] seed']; simpl.
    + now eexists.
    + destruct (np_random_uniform _ _ _ g). now eexists.
  - intros Hkey. now apply build_key_joined.
Qed.

(** On a system that agrees with its C system on the number of dimensions
    and a context whose values cross the cffi boundary unchanged, [sample]
    raises in two cases only, tested in this order: a context whose length
    is not the dimension count ([ValueError]) and a seed that does not fit
    an [unsigned int] ([OverflowError]); a call that raises leaves NumPy's
    generator where it was.  Every vector it returns has [param_count]
    entries, from the library or from the fallback. *)
Theorem sample_raises_or_returns_param_count (Hnp : uniform_contract np)
    (self : Context.ContextSystem) (context : list string)
    (exploration : float) (seed : option Z) (g : RandomState)
    (Hagree : dimensions_agree self)
    (Htext : Forall c_text context) :
  (length context <> length (Context._dimensions self) ->
   Context.sample self context exploration seed g = (Raise ValueError, g)) /\
  (length context = length (Context._dimensions self) -> ~ seed_fits seed ->
   Context.sample self context exploration seed g = (Raise OverflowError, g)) /\
  (length context = length (Context._dimensions self) -> seed_fits seed ->
   exists out : list float,
     (Context.sample self context exploration seed g).1 = Ok out /\
     length out = Context._param_count self).
Proof.
  split; [| split].
  - intros Hlen. unfold Context.sample.
    apply length_test_true in Hlen. now rewrite Hlen.
  - intros Hlen Hseed. unfold Context.sample.
    apply length_test_false in Hlen. rewrite Hlen.
    unfold to_unsigned_int, seed_fits in *.
    destruct (0 <=? default 0 seed) eqn:Hlo;
      destruct (default 0 seed <=? UINT_MAX) eqn:Hhi; simpl; try reflexivity.
    apply Z.leb_le in Hlo, Hhi. exfalso. apply Hseed. lia.
  - intros Hlen Hseed.
    destruct (library_has_data self context exploration seed) eqn:Hdata.
    + rewrite (sample_with_data self context exploration seed g Hlen Hseed Hdata).
      eexists. split; [reflexivity | apply read_doubles_length].
    + rewrite (sample_without_data self context exploration seed g Hlen Hseed Hdata).
      eexists. split; [reflexivity |]. apply (Hnp (Context._param_count self) g).
Qed.

(** [learn] never touches the dimension definitions or the parameter
    count: after any run of [learn] calls, accepted or refused,
    [validate_context] answers every context as it did before. *)
Theorem learn_keeps_dimensions (self : Context.ContextSystem)
    (calls : list (list string * list float * float)) :
  Context._dimensions (ContextMore.learn_all self calls) = Context._dimensions self /\
  Context._param_count (ContextMore.learn_all self calls) = Context._param_count self /\
  forall context : list string,
    Context.validate_context (ContextMore.learn_all self calls) context
    = Context.validate_context self context.
Proof.
  assert (Hkeep : Context._dimensions (ContextMore.learn_all self calls)
                  = Context._dimensions self /\
                  Context._param_count (ContextMore.learn_all self calls)
                  = Context._param_count self).
  { revert self. induction calls as [| [[context parameters] fitness] rest IH];
      intros self; [now split |].
    simpl. destruct (IH (Context.learn self context parameters fitness).2)
      as [Hd Hp].
    rewrite Hd, Hp. unfold Context.learn.
    destruct (negb (length context =? _)%nat); [now split |].
    destruct (negb (length parameters =? _)%nat); [now split |].
    destruct (evocore_context_learn _ _ _ _ _). now split. }
  destruct Hkeep as [Hd Hp]. split; [exact Hd |]. split; [exact Hp |].
  intros context. unfold Context.validate_context. now rewrite Hd.
Qed.

(** A system that [load_json] or [load_binary] returns has no dimension
    definitions: [validate_context] accepts the empty context only, and
    [learn], [sample], [get_stats] and [build_key] raise [ValueError] on
    every other context, one that was valid for the saved system
    included. *)
Theorem loaded_system_has_no_dimensions (fs : files) (filepath : string)
    (self : Context.ContextSystem)
    (Hload : ContextMore.load_json fs filepath = Ok self \/
             ContextMore.load_binary fs filepath = Ok self) :
  Context._dimensions self = [] /\
  Context.validate_context self [] = Ok true /\
  forall context : list string,
    context <> [] ->
    Context.validate_context self context = Ok false /\
    (forall (parameters : list float) (fitness : float),
        Context.learn self context parameters fitness = (Raise ValueError, self)) /\
    (forall (exploration : float) (seed : option Z) (g : RandomState),
        Context.sample self context exploration seed g = (Raise ValueError, g)) /\
    ContextMore.get_stats self context = Raise ValueError /\
    Context.build_key self context = Raise ValueError.
Proof.
  assert (Hdims : Context._dimensions self = []).
  { unfold ContextMore.load_json, ContextMore.load_binary, ContextMore.loaded in Hload.
    destruct Hload as [Hload | Hload];
      [destruct (evocore_context_load_json fs filepath) as [[|] [sys |]]
      | destruct (evocore_context_load_binary fs filepath) as [[|] [sys |]]];
      try discriminate Hload; now inversion Hload. }
  split; [exact Hdims |]. split.
  - unfold Context.validate_context. now rewrite Hdims.
  - intros context Hne.
    assert (Htest : negb (length context =? length (Context._dimensions self))%nat
                    = true).
    { apply length_test_true. rewrite Hdims. now destruct context. }
    unfold Context.validate_context, Context.learn, Context.sample,
      ContextMore.get_stats, Context.build_key.
    rewrite Htest. repeat split.
Qed.

End ContextEntryPoints.

(** Concrete inputs for the entry points above: the reference model, with
    saved systems kept by path. *)
Module DemoContext.

(** Modelled from the spec: [evocore_context_get_stats] (C, missing), the
    statistics of the context's key when it has any. *)
Definition get_stats (sys : Reference.context_system) (values : list string)
  : bool * option (list (list float * float)) :=
  match Reference.contexts sys !! py_join ":" values with
  | Some seen => (true, Some seen)
  | None => (false, None)
  end.

(** Modelled from the spec: [evocore_context_load_json] and
    [evocore_context_load_binary] (C, missing), on a file store that maps a
    path to the system saved there. *)
Definition load (fs : gmap string Reference.context_system) (filepath : string)
  : bool * option Reference.context_system :=
  match fs !! filepath with
  | Some sys => (true, Some sys)
  | None => (false, None)
  end.

#[global] Instance clib : context_lib Demo.lib := {|
  evocore_context_stats_t := list (list float * float);
  files := gmap string Reference.context_system;
  evocore_context_get_stats := get_stats;
  evocore_context_load_json := load;
  evocore_context_load_binary := load;
  system_param_count := Reference.param_count
|}.

(** A store with the system of [Demo.assets] saved under one path. *)
Definition saved : gmap string Reference.context_system :=
  {[ "ctx.json" := Reference.context_system_create [("asset", ["BTC"; "ETH"])] 3 ]}.

(** What [load_json] returns for that path. *)
Definition reloaded : Context.ContextSystem :=
  {| Context._system :=
       Reference.context_system_create [("asset", ["BTC"; "ETH"])] 3;
     Context._dimensions := [];
     Context._param_count := 3 |}.

End DemoContext.

(** The reloaded system does not agree with its C system, which kept the
    dimension of the saved one. *)
Example reloaded_disagrees :
  ~ dimensions_agree DemoContext.reloaded /\ dimensions_agree Demo.assets.
Proof. split; [discriminate | reflexivity]. Qed.

Lemma validated_context_is_accepted_witness :
  dimensions_agree market /\
  Forall c_text ["ETH"; "4h"] /\
  Context.validate_context market ["ETH"; "4h"] = Ok true /\
  length [0.1; 0.2]%float = Context._param_count market /\
  seed_fits None /\
  returns (ContextMore.get_stats market ["ETH"; "4h"]) /\
  returns (Context.learn market ["ETH"; "4h"] [0.1; 0.2]%float 0.9%float).1 /\
  returns (Context.sample market ["ETH"; "4h"] 0.5%float None 0%nat).1 /\
  Context.build_key market ["ETH"; "4h"] = Ok "ETH:4h".
Proof.
  assert (Hagree : dimensions_agree market) by reflexivity.
  assert (Htext : Forall c_text ["ETH"; "4h"]) by (repeat constructor).
  assert (Hseed : seed_fits None) by (unfold seed_fits, UINT_MAX; simpl; lia).
  split; [exact Hagree |]. split; [exact Htext |].
  split; [reflexivity |]. split; [reflexivity |]. split; [exact Hseed |].
  destruct (@validated_context_is_accepted Demo.lib Cycle.cycle_numpy
              DemoContext.clib Demo.layout market ["ETH"; "4h"]
              [0.1; 0.2]%float 0.9%float 0.5%float None 0%nat
              Hagree Htext eq_refl eq_refl Hseed)
    as (Hstats & Hlearn & Hsample & Hkey).
  split; [exact Hstats |]. split; [exact Hlearn |]. split; [exact Hsample |].
  exact (Hkey (reference_build_key_contract Demo.latest Demo.defaults)).
Defined.

Lemma sample_raises_or_returns_param_count_witness :
  uniform_contract Cycle.cycle_numpy /\
  dimensions_agree market /\
  Context.sample market ["BTC"] 0.5%float (Some 7) 0%nat
  = (Raise ValueError, 0%nat) /\
  Context.sample market ["BTC"; "1h"] 0.5%float (Some (-1)) 0%nat
  = (Raise OverflowError, 0%nat) /\
  exists out : list float,
    (Context.sample market ["BTC"; "1h"] 0.5%float (Some 7) 0%nat).1 = Ok out /\
    length out = Context._param_count market.
Proof.
  assert (Hagree : dimensions_agree market) by reflexivity.
  assert (Hfits : seed_fits (Some 7)) by (unfold seed_fits, UINT_MAX; simpl; lia).
  assert (Hover : ~ seed_fits (Some (-1))) by (unfold seed_fits; simpl; lia).
  split; [exact cycle_uniform_contract |]. split; [exact Hagree |].
  split; [| split].
  - apply (@sample_raises_or_returns_param_count Demo.lib Cycle.cycle_numpy
             Demo.layout cycle_uniform_contract
             market ["BTC"] 0.5%float (Some 7) 0%nat Hagree);
      [repeat constructor | simpl; lia].
  - apply (@sample_raises_or_returns_param_count Demo.lib Cycle.cycle_numpy
             Demo.layout cycle_uniform_contract
             market ["BTC"; "1h"] 0.5%float (Some (-1)) 0%nat Hagree);
      [repeat constructor | reflexivity | exact Hover].
  - apply (@sample_raises_or_returns_param_count Demo.lib Cycle.cycle_numpy
             Demo.layout cycle_uniform_contract
             market ["BTC"; "1h"] 0.5%float (Some 7) 0%nat Hagree);
      [repeat constructor | reflexivity | exact Hfits].
Defined.

Example sample_error_order :
  Context.sample Demo.assets ["BTC"; "1h"] 0.5%float (Some (-1)) 0%nat
  = (Raise ValueError, 0%nat) /\
  Context.sample Demo.assets ["BTC"] 0.5%float (Some (-1)) 0%nat
  = (Raise OverflowError, 0%nat) /\
  Context.sample Demo.assets ["BTC"] 0.5%float (Some (2 ^ 32)) 0%nat
  = (Raise OverflowError, 0%nat).
Proof. vm_compute. repeat split. Qed.

Lemma loaded_system_has_no_dimensions_witness :
  (ContextMore.load_json DemoContext.saved "ctx.json" = Ok DemoContext.reloaded \/
   ContextMore.load_binary DemoContext.saved "ctx.json" = Ok DemoContext.reloaded) /\
  Context.validate_context Demo.assets ["BTC"] = Ok true /\
  Context.validate_context DemoContext.reloaded ["BTC"] = Ok false /\
  Context.learn DemoContext.reloaded ["BTC"] [0.1; 0.2; 0.3]%float 0.9%float
  = (Raise ValueError, DemoContext.reloaded).
Proof.
  assert (Hload : ContextMore.load_json DemoContext.saved "ctx.json"
                  = Ok DemoContext.reloaded) by reflexivity.
  split; [left; exact Hload |]. split; [reflexivity |].
  destruct (@loaded_system_has_no_dimensions Demo.lib Cycle.cycle_numpy
              DemoContext.clib DemoContext.saved "ctx.json"
              DemoContext.reloaded (or_introl Hload)) as (_ & _ & Hall).
  destruct (Hall ["BTC"] ltac:(discriminate)) as (Hvalidate & Hlearn & _).
  split; [exact Hvalidate | apply Hlearn].
Defined.

(** ** learning/weighted.py, the queries of WeightedArray *)

(** The library functions behind the queries; each fills an out buffer of
    [count] doubles and answers whether it could. *)
Class weighted_lib (lib : evocore_lib) : Type := {
  (* bool evocore_weighted_array_get_means(const array, out_means, count) *)
  evocore_weighted_array_get_means :
    evocore_weighted_array_t -> Z -> bool * list float;
  (* bool evocore_weighted_array_get_stds(const array, out_stds, count) *)
  evocore_weighted_array_get_stds :
    evocore_weighted_array_t -> Z -> bool * list float;
  (* bool evocore_weighted_array_sample(const array, out_values, count,
                                        exploration_factor, seed) *)
  evocore_weighted_array_sample :
    evocore_weighted_array_t -> Z -> float -> Z -> bool * list float * Z
}.

Module WeightedMore.
Section Queries.
Context {lib : evocore_lib} {wlib : weighted_lib lib}.

(** [np.zeros(n)]. *)
Definition np_zeros (n : nat) : list float := repeat 0%float n.

(** [WeightedArray.get_means]. *)
Definition get_means (self : Weighted.WeightedArray) : list float :=
  let '(success, out) :=
    evocore_weighted_array_get_means (Weighted._array self)
                                     (Z.of_nat (Weighted._count self)) in
  if negb success then np_zeros (Weighted._count self)
  else Context.read_doubles out (Weighted._count self).

(** [WeightedArray.get_stds]. *)
Definition get_stds (self : Weighted.WeightedArray) : list float :=
  let '(success, out) :=
    evocore_weighted_array_get_stds (Weighted._array self)
                                    (Z.of_nat (Weighted._count self)) in
  if negb success then np_zeros (Weighted._count self)
  else Context.read_doubles out (Weighted._count self).

(** [WeightedArray.sample]. *)
Definition sample (self : Weighted.WeightedArray) (exploration_factor : float)
    (seed : option Z) : result (list float) :=
  seed_ptr ← to_unsigned_int (default 0 seed);
  let '(success, out, _) :=
    evocore_weighted_array_sample (Weighted._array self)
                                  (Z.of_nat (Weighted._count self))
                                  exploration_factor seed_ptr in
  if negb success then Ok (get_means self)
  else Ok (Context.read_doubles out (Weighted._count self)).

End Queries.
End WeightedMore.

Section WeightedQueries.
Context {lib : evocore_lib} {wlib : weighted_lib lib}.

Lemma get_means_length (self : Weighted.WeightedArray) :
  length (WeightedMore.get_means self) = Weighted._count self.
Proof.
  unfold WeightedMore.get_means.
  destruct (evocore_weighted_array_get_means _ _) as [[|] out]; simpl.
  - apply read_doubles_length.
  - apply repeat_length.
Qed.

(** The queries of a [WeightedArray] return [count] entries whatever the
    library answers: [get_means] and [get_stds] fall back to zeros,
    [sample] falls back to [get_means], and with a seed that fits an
    [unsigned int] [sample] does not raise. *)
Theorem weighted_array_queries_have_count_entries
    (self : Weighted.WeightedArray) (exploration_factor : float)
    (seed : option Z) (Hseed : seed_fits seed) :
  length (WeightedMore.get_means self) = Weighted._count self /\
  length (WeightedMore.get_stds self) = Weighted._count self /\
  (exists out : list float,
      WeightedMore.sample self exploration_factor seed = Ok out /\
      length out = Weighted._count self) /\
  ((evocore_weighted_array_get_means (Weighted._array self)
      (Z.of_nat (Weighted._count self))).1 = false ->
   WeightedMore.get_means self = repeat 0%float (Weighted._count self)) /\
  ((evocore_weighted_array_get_stds (Weighted._array self)
      (Z.of_nat (Weighted._count self))).1 = false ->
   WeightedMore.get_stds self = repeat 0%float (Weighted._count self)) /\
  ((evocore_weighted_array_sample (Weighted._array self)
      (Z.of_nat (Weighted._count self)) exploration_factor (default 0 seed)).1.1
   = false ->
   WeightedMore.sample self exploration_factor seed
   = Ok (WeightedMore.get_means self)).
Proof.
  split; [apply get_means_length |]. split; [| split; [| split; [| split]]].
  - unfold WeightedMore.get_stds.
    destruct (evocore_weighted_array_get_stds _ _) as [[|] out]; simpl;
      [apply read_doubles_length | apply repeat_length].
  - unfold WeightedMore.sample. rewrite (to_unsigned_int_fits seed Hseed). simpl.
    destruct (evocore_weighted_array_sample _ _ _ _) as [[[|] out] seed']; simpl;
      eexists; (split; [reflexivity |]);
      [apply read_doubles_length | apply get_means_length].
  - unfold WeightedMore.get_means.
    destruct (evocore_weighted_array_get_means _ _) as [[|] out]; simpl;
      [discriminate | reflexivity].
  - unfold WeightedMore.get_stds.
    destruct (evocore_weighted_array_get_stds _ _) as [[|] out]; simpl;
      [discriminate | reflexivity].
  - unfold WeightedMore.sample. rewrite (to_unsigned_int_fits seed Hseed). simpl.
    destruct (evocore_weighted_array_sample _ _ _ _) as [[[|] out] seed']; simpl;
      [discriminate | reflexivity].
Qed.

End WeightedQueries.

Module DemoWeighted.

(** Modelled from the spec: the per-parameter queries of a weighted array
    (C, missing), on an array seen as the updates it has absorbed: each
    fails on an array without updates and otherwise reports from the
    values absorbed last. *)
Definition last_values (arr : list (list float * list float * float)) (count : Z)
  : bool * list float :=
  match last arr with
  | Some (values, _, _) => (true, values)
  | None => (false, [])
  end.

Definition last_sample (arr : list (list float * list float * float))
    (count : Z) (exploration_factor : float) (seed : Z)
  : bool * list float * Z :=
  (last_values arr count, (seed * 1103515245 + 12345) mod 2 ^ 32).

#[global] Instance wlib : weighted_lib Demo.lib := {|
  evocore_weighted_array_get_means := last_values;
  evocore_weighted_array_get_stds := last_values;
  evocore_weighted_array_sample := last_sample
|}.

End DemoWeighted.

Lemma weighted_array_queries_have_count_entries_witness :
  seed_fits (Some 7) /\
  length (WeightedMore.get_means Demo.triple) = Weighted._count Demo.triple /\
  WeightedMore.get_means Demo.triple = [0; 0; 0]%float /\
  WeightedMore.get_stds Demo.triple = [0; 0; 0]%float /\
  WeightedMore.sample Demo.triple 0.5%float (Some 7) = Ok [0; 0; 0]%float.
Proof.
  assert (Hseed : seed_fits (Some 7)) by (unfold seed_fits, UINT_MAX; simpl; lia).
  split; [exact Hseed |].
  destruct (@weighted_array_queries_have_count_entries Demo.lib DemoWeighted.wlib
              Demo.triple 0.5%float (Some 7) Hseed)
    as (Hmeans & _ & _ & Hzeros & Hstds & Hfallback).
  split; [exact Hmeans |].
  split; [exact (Hzeros eq_refl) |]. split; [exact (Hstds eq_refl) |].
  rewrite (Hfallback eq_refl). now rewrite (Hzeros eq_refl).
Defined.

(** ** meta/params.py, assignment through properties and from_dict *)

(** What a property returns for a stored value. *)
Definition py_of_cval (c : Params.cval) : Params.pyval :=
  match c with
  | Params.CDouble x => Params.PyFloat x
  | Params.CSize n => Params.PyInt n
  | Params.CBool b => Params.PyBool b
  end.

(** What an item of a dictionary assigns: the field its key names and the
    value as the member will store it, when the key is a field and the
    value converts. *)
Definition item_assignment (item : string * Params.pyval)
  : option (Params.field * Params.cval) :=
  match Params.find_field item.1 with
  | Some f =>
      match Params.to_ctype (Params.field_type f) item.2 with
      | Ok c => Some (f, c)
      | Raise _ => None
      end
  | None => None
  end.

(** The value the items assign to field [f]: that of the last item for it,
    if any. *)
Fixpoint assigned (d : list (string * Params.pyval)) (f : Params.field)
  : option Params.cval :=
  match d with
  | [] => None
  | item :: rest =>
      match assigned rest f with
      | Some c => Some c
      | None =>
          match item_assignment item with
          | Some (f', c) => if decide (f' = f) then Some c else None
          | None => None
          end
      end
  end.

Lemma read_field_stored (p : evocore_meta_params_t) (f : Params.field) :
  Params.read_field p f = py_of_cval (Params.stored p f).
Proof. destruct f; reflexivity. Qed.

Lemma to_ctype_has_ctype (t : Params.ctype) (v : Params.pyval) (c : Params.cval) :
  Params.to_ctype t v = Ok c -> has_ctype c t.
Proof.
  destruct t, v; simpl; intros H; try discriminate H.
  - now inversion H.
  - destruct (Params.float_of_int n); inversion H. exact I.
  - now inversion H.
  - destruct (to_size_t n); inversion H. exact I.
  - now inversion H.
  - destruct (n =? 0); [now inversion H |].
    destruct (n =? 1); [now inversion H | discriminate H].
  - now inversion H.
Qed.

Lemma find_field_name (f : Params.field) :
  Params.find_field (Params.field_name f) = Some f.
Proof. destruct f; reflexivity. Qed.


Lemma resolve_find_field (name : string) (f : Params.field) :
  Params.find_field name = Some f -> Params.resolve name = Params.Property f.
Proof. intros H. unfold Params.resolve. now rewrite H. Qed.

Section PropertyAssignment.
Context {lib : evocore_lib}.

(** Assigning to a property stores the converted value in its member and
    leaves every other property as it was: the assigned property then
    returns the stored value, the other 24 what they returned before. *)
Theorem property_assignment_frame (self : Params.MetaParams)
    (p : evocore_meta_params_t) (f : Params.field) (value : Params.pyval)
    (c : Params.cval)
    (Hself : Params._params self = Params.Handle p)
    (Hconv : Params.to_ctype (Params.field_type f) value = Ok c) :
  exists self' : Params.MetaParams,
    Params.setattr self (Params.field_name f) value = Ok self' /\
    Params.get_property self' f = Ok (py_of_cval c) /\
    forall f' : Params.field,
      f' <> f -> Params.get_property self' f' = Params.get_property self f'.
Proof.
  pose proof (to_ctype_has_ctype _ _ _ Hconv) as Htype.
  exists (Params.with_params self (Params.Handle (Params.store p f c))).
  split; [| split].
  - unfold Params.setattr. rewrite resolve_field_name.
    unfold Params.set_property. rewrite Hself, Hconv. reflexivity.
  - unfold Params.get_property. simpl.
    rewrite read_field_stored, (stored_store p f f c Htype).
    now rewrite decide_True.
  - intros f' Hne. unfold Params.get_property. simpl. rewrite Hself.
    rewrite !read_field_stored, (stored_store p f f' c Htype).
    now rewrite decide_False.
Qed.

(** The loop of [from_dict] takes the items from left to right: the items
    after a prefix are processed on the object the prefix left. *)
Lemma from_dict_loop_app (d1 d2 : list (string * Params.pyval)) :
  forall params : Params.MetaParams,
    Params.from_dict_loop params (d1 ++ d2) =
    match Params.from_dict_loop params d1 with
    | Ok params' => Params.from_dict_loop params' d2
    | Raise e => Raise e
    end.
Proof.
  induction d1 as [| [name value] d1 IH]; intros params; [reflexivity |].
  simpl. destruct (Params.hasattr params name); [| apply IH].
  destruct (Params.setattr params name value) as [params' | e]; simpl;
    [apply IH | reflexivity].
Qed.

Lemma from_dict_loop_assignments (d : list (string * Params.pyval)) :
  Forall (fun item => is_Some (item_assignment item)) d ->
  forall q : evocore_meta_params_t,
  exists q' : evocore_meta_params_t,
    Params.from_dict_loop (around q) d = Ok (around q') /\
    forall f : Params.field,
      Params.stored q' f = default (Params.stored q f) (assigned d f).
Proof.
  induction 1 as [| [name value] rest Hitem _ IH]; intros q.
  - exists q. now split.
  - destruct Hitem as [[f c] Hitem]. unfold item_assignment in Hitem.
    simpl in Hitem.
    destruct (Params.find_field name) as [f0 |] eqn:Hfind; [| discriminate].
    destruct (Params.to_ctype (Params.field_type f0) value) as [c0 | e] eqn:Hconv;
      [| discriminate].
    inversion Hitem; subst f0 c0. clear Hitem.
    pose proof (to_ctype_has_ctype _ _ _ Hconv) as Htype.
    destruct (IH (Params.store q f c)) as (q' & Hloop & Hstored).
    exists q'. split.
    + simpl. unfold Params.hasattr, Params.setattr.
      rewrite (resolve_find_field name f Hfind). simpl.
      unfold Params.set_property. simpl. rewrite Hconv. exact Hloop.
    + intros f'. rewrite Hstored. simpl.
      destruct (assigned rest f') as [c' |]; [reflexivity |].
      unfold item_assignment. simpl. rewrite Hfind, Hconv.
      rewrite (stored_store q f f' c Htype).
      destruct (decide (f = f')) as [-> | Hne].
      * now rewrite decide_True.
      * rewrite decide_False by congruence. reflexivity.
Qed.


(** An item whose value does not convert aborts [from_dict]: a float for
    an integer or boolean member raises [TypeError], an integer outside
    [0, SIZE_MAX] for a [size_t] member raises [OverflowError], whatever
    follows it in the dictionary. *)
Theorem from_dict_conversion_errors (d1 d2 : list (string * Params.pyval))
    (f : Params.field)
    (Hd1 : Forall (fun item => is_Some (item_assignment item)) d1) :
  (forall x : float,
      Params.field_type f <> Params.c_double ->
      Params.from_dict (d1 ++ (Params.field_name f, Params.PyFloat x) :: d2)
      = Raise TypeError) /\
  (forall n : Z,
      Params.field_type f = Params.c_size_t ->
      ~ 0 <= n <= SIZE_MAX ->
      Params.from_dict (d1 ++ (Params.field_name f, Params.PyInt n) :: d2)
      = Raise OverflowError).
Proof.
  destruct (from_dict_loop_assignments d1 Hd1 evocore_meta_params_init)
    as (q & Hloop & _).
  split.
  - intros x Htype. unfold Params.from_dict.
    rewrite from_dict_loop_app. change Params.new with (around evocore_meta_params_init).
    rewrite Hloop. simpl. unfold Params.hasattr, Params.setattr.
    rewrite resolve_field_name. simpl. unfold Params.set_property. simpl.
    destruct (Params.field_type f); [contradiction | reflexivity | reflexivity].
  - intros n Htype Hrange. unfold Params.from_dict.
    rewrite from_dict_loop_app. change Params.new with (around evocore_meta_params_init).
    rewrite Hloop. simpl. unfold Params.hasattr, Params.setattr.
    rewrite resolve_field_name. simpl. unfold Params.set_property. simpl.
    rewrite Htype. simpl. unfold to_size_t.
    destruct (0 <=? n) eqn:Hlo; destruct (n <=? SIZE_MAX) eqn:Hhi; simpl;
      try reflexivity.
    apply Z.leb_le in Hlo, Hhi. exfalso. apply Hrange. lia.
Qed.

End PropertyAssignment.

Lemma property_assignment_frame_witness :
  Params._params (around Demo.defaults) = Params.Handle Demo.defaults /\
  Params.to_ctype (Params.field_type Params.f_max_population_size) (Params.PyInt 4000)
  = Ok (Params.CSize 4000) /\
  exists self' : Params.MetaParams,
    Params.setattr (around Demo.defaults) "max_population_size" (Params.PyInt 4000)
    = Ok self' /\
    Params.get_property self' Params.f_max_population_size = Ok (Params.PyInt 4000) /\
    forall f' : Params.field,
      f' <> Params.f_max_population_size ->
      Params.get_property self' f' = Params.get_property (around Demo.defaults) f'.
Proof.
  split; [reflexivity |]. split; [reflexivity |].
  exact (property_assignment_frame (around Demo.defaults) Demo.defaults
           Params.f_max_population_size (Params.PyInt 4000) (Params.CSize 4000)
           eq_refl eq_refl).
Defined.


Lemma from_dict_conversion_errors_witness :
  Forall (fun item => is_Some (item_assignment item))
    [("learning_rate", Params.PyFloat 0.25)] /\
  Params.from_dict [("learning_rate", Params.PyFloat 0.25);
                    ("target_population_size", Params.PyFloat 100);
                    ("culling_ratio", Params.PyFloat 0.5)]
  = Raise TypeError /\
  Params.from_dict [("learning_rate", Params.PyFloat 0.25);
                    ("target_population_size", Params.PyInt (-1));
                    ("culling_ratio", Params.PyFloat 0.5)]
  = Raise OverflowError.
Proof.
  assert (Hd : Forall (fun item => is_Some (item_assignment item))
                 [("learning_rate", Params.PyFloat 0.25)]).
  { repeat constructor; eexists; reflexivity. }
  split; [exact Hd |].
  destruct (@from_dict_conversion_errors Demo.lib
              [("learning_rate", Params.PyFloat 0.25)]
              [("culling_ratio", Params.PyFloat 0.5)]
              Params.f_target_population_size Hd) as [Hfloat Hint].
  split.
  - apply (Hfloat 100%float). discriminate.
  - apply (Hint (-1)); [reflexivity | unfold SIZE_MAX; lia].
Defined.

(** ** utils/stats.py, the cadence on a generation counter *)

(** The snapshots of a loop that reports once per generation: their
    generations count up from [start] by one. *)
Fixpoint consecutive (start : Z) (snapshots : list Stats.Stats) : Prop :=
  match snapshots with
  | [] => True
  | s :: rest => Stats.generation s = start /\ consecutive (start + 1) rest
  end.

(** The generations are in non-decreasing order, none before [from]. *)
Fixpoint non_decreasing (from : Z) (snapshots : list Stats.Stats) : Prop :=
  match snapshots with
  | [] => True
  | s :: rest => from <= Stats.generation s /\ non_decreasing (Stats.generation s) rest
  end.

(** The snapshots whose generation completes a block of [every_n]. *)
Definition block_ends (every_n : Z) (snapshots : list Stats.Stats)
  : list Stats.Stats :=
  filter (fun s => (Stats.generation s + 1) mod every_n = 0) snapshots.

Lemma block_end_iff (n last start : Z) :
  1 <= n -> (last + 1) mod n = 0 -> last < start <= last + n ->
  ((start + 1) mod n = 0 <-> start - last >= n).
Proof.
  intros Hn Hlast Hrange.
  apply Z.mod_divide in Hlast; [| lia]. destruct Hlast as [q Hq].
  replace (start + 1) with ((start - last) + q * n) by lia.
  rewrite Z.mod_add by lia.
  destruct (Z.eq_dec (start - last) n) as [Heq | Hne].
  - rewrite Heq, Z.mod_same by lia. lia.
  - rewrite Z.mod_small by lia. lia.
Qed.

Lemma report_all_consecutive (snapshots : list Stats.Stats) :
  forall (self : @Stats.ProgressReporter (list Stats.Stats))
         (start : Z) (seen : list Stats.Stats),
    Stats._callback self = Stats.recorder ->
    1 <= Stats._every_n self ->
    (Stats._last_reported self + 1) mod Stats._every_n self = 0 ->
    Stats._last_reported self < start <= Stats._last_reported self + Stats._every_n self ->
    consecutive start snapshots ->
    (Stats.report_all self snapshots seen).2
    = (seen ++ block_ends (Stats._every_n self) snapshots)%list.
Proof.
  induction snapshots as [| s rest IH]; intros self start seen Hcb Hn Hlast Hrange Hcons.
  - simpl. now rewrite app_nil_r.
  - destruct Hcons as [Hgen Hcons]. simpl. rewrite report_unfold.
    pose proof (block_end_iff _ _ _ Hn Hlast Hrange) as Hend.
    rewrite <- Hgen in Hend. unfold block_ends. rewrite filter_cons.
    destruct (Stats.due self s) eqn:Hdue.
    + apply due_iff in Hdue. rewrite decide_True by now apply Hend.
      rewrite (IH _ (start + 1)); simpl; try assumption.
      * rewrite Hcb. unfold Stats.recorder, block_ends.
        now rewrite <- app_assoc.
      * now apply Hend.
      * lia.
    + assert (Hnot : ~ Stats.generation s - Stats._last_reported self
                       >= Stats._every_n self).
      { intros H. apply due_iff in H. congruence. }
      rewrite decide_False by (intros H; now apply Hnot, Hend).
      apply (IH _ (start + 1)); try assumption. lia.
Qed.

(** In a loop that calls [report] once per generation, from generation 0
    on, a new reporter with [every_n >= 1] invokes its callback on exactly
    the generations [every_n - 1], [2 * every_n - 1], ...: those [g] with
    [(g + 1) mod every_n = 0].  The first report comes after [every_n]
    generations, not at generation 0. *)
Theorem report_fires_at_block_ends (every_n : Z) (verbose : bool)
    (snapshots : list Stats.Stats)
    (Hn : 1 <= every_n) (Hloop : consecutive 0 snapshots) :
  (Stats.report_all (Stats.init Stats.recorder every_n verbose) snapshots []).2
  = block_ends every_n snapshots.
Proof.
  rewrite (report_all_consecutive snapshots _ 0 []); simpl;
    [reflexivity | reflexivity | exact Hn | | lia | exact Hloop].
  apply Z.mod_0_l. lia.
Qed.

Lemma report_all_every_call (snapshots : list Stats.Stats) :
  forall (self : @Stats.ProgressReporter (list Stats.Stats))
         (seen : list Stats.Stats),
    Stats._callback self = Stats.recorder ->
    Stats._every_n self <= 0 ->
    non_decreasing (Stats._last_reported self) snapshots ->
    (Stats.report_all self snapshots seen).2 = (seen ++ snapshots)%list.
Proof.
  induction snapshots as [| s rest IH]; intros self seen Hcb Hn Hord.
  - simpl. now rewrite app_nil_r.
  - destruct Hord as [Hfrom Hord]. simpl. rewrite report_unfold.
    assert (Hdue : Stats.due self s = true) by (apply due_iff; lia).
    rewrite Hdue, IH; simpl; try assumption.
    rewrite Hcb. unfold Stats.recorder. now rewrite <- app_assoc.
Qed.

(** With [every_n <= 0] the test of [report] never holds a call back: on
    generations that do not decrease, every call invokes the callback,
    repeated generations included. *)
Theorem report_every_call_when_every_n_not_positive (every_n : Z)
    (verbose : bool) (snapshots : list Stats.Stats)
    (Hn : every_n <= 0) (Hord : non_decreasing (-1) snapshots) :
  (Stats.report_all (Stats.init Stats.recorder every_n verbose) snapshots []).2
  = snapshots.
Proof.
  now rewrite (report_all_every_call snapshots _ []).
Qed.

Lemma report_fires_at_block_ends_witness :
  1 <= 3 /\
  consecutive 0 (map snapshot [0; 1; 2; 3; 4; 5; 6]) /\
  map Stats.generation
    (Stats.report_all (Stats.init Stats.recorder 3 false)
       (map snapshot [0; 1; 2; 3; 4; 5; 6]) []).2
  = [2; 5].
Proof.
  assert (Hloop : consecutive 0 (map snapshot [0; 1; 2; 3; 4; 5; 6]))
    by (simpl; repeat split).
  split; [lia |]. split; [exact Hloop |].
  rewrite (report_fires_at_block_ends 3 false _ ltac:(lia) Hloop).
  reflexivity.
Defined.

Lemma report_every_call_when_every_n_not_positive_witness :
  0 <= 0 /\
  non_decreasing (-1) (map snapshot [0; 0; 1; 5; 5]) /\
  map Stats.generation
    (Stats.report_all (Stats.init Stats.recorder 0 false)
       (map snapshot [0; 0; 1; 5; 5]) []).2
  = [0; 0; 1; 5; 5].
Proof.
  assert (Hord : non_decreasing (-1) (map snapshot [0; 0; 1; 5; 5]))
    by (simpl; repeat split; lia).
  split; [lia |]. split; [exact Hord |].
  rewrite (report_every_call_when_every_n_not_positive 0 false _ ltac:(lia) Hord).
  reflexivity.
Defined.

(** ** utils/config.py, the entries of a section *)

(** [evocore_config_entry_t] as declared: two C strings ([None] is [NULL])
    and the integer of the [evocore_config_type_t]. *)
Record evocore_config_entry_t : Type := {
  c_key : option string;
  c_value : option string;
  c_type : Z
}.

(** The library functions [Config] calls to enumerate a section. *)
Class config_lib : Type := {
  evocore_config_t : Type;
  (* size_t evocore_config_section_size(const config, section) *)
  evocore_config_section_size : evocore_config_t -> string -> Z;
  (* const evocore_config_entry_t* evocore_config_get_entry(const config,
                                                            section, index) *)
  evocore_config_get_entry :
    evocore_config_t -> string -> Z -> option evocore_config_entry_t
}.

Module ConfigMore.

(** [ConfigType(n)]: the member with value [n], [ValueError] when there is
    none. *)
Definition config_type (n : Z) : result Config.ConfigType :=
  if n =? 0 then Ok Config.STRING
  else if n =? 1 then Ok Config.INT
  else if n =? 2 then Ok Config.DOUBLE
  else if n =? 3 then Ok Config.BOOL
  else Raise ValueError.

Section Config.
Context {cfg : config_lib}.

(** The slot of a loaded [Config]. *)
Record Config : Type := { _config : evocore_config_t }.

(** [Config.section_size]. *)
Definition section_size (self : Config) (section : string) : Z :=
  evocore_config_section_size (_config self) section.


(** [ffi.string(p).decode() if p != ffi.NULL else ""]. *)
Definition c_string_field (p : option string) : result string :=
  match p with
  | None => Ok ""
  | Some bytes => py_decode (c_str bytes)
  end.

(** [Config.get_entry]: the arguments of [ConfigEntry(...)] are evaluated
    in the order they are written, the two decodings before
    [ConfigType(...)]. *)
Definition get_entry (self : Config) (section : string) (index : Z)
  : result (option Config.ConfigEntry) :=
  i ← to_size_t index;
  match evocore_config_get_entry (_config self) section i with
  | None => Ok None
  | Some entry_ptr =>
      key ← c_string_field (c_key entry_ptr);
      value ← c_string_field (c_value entry_ptr);
      entry_type ← config_type (c_type entry_ptr);
      Ok (Some {| Config.key := key;
                  Config.value := value;
                  Config.type_ := entry_type |})
  end.

(** The loop of [get_section] over the indices still to visit; a
    [ConfigEntry] is always truthy, so only [None] is skipped. *)
Fixpoint get_section_loop (self : Config) (section : string)
    (indices : list nat) (acc : gmap string string)
  : result (gmap string string) :=
  match indices with
  | [] => Ok acc
  | i :: rest =>
      entry ← get_entry self section (Z.of_nat i);
      match entry with
      | Some e =>
          get_section_loop self section rest
            (<[Config.key e := Config.value e]> acc)
      | None => get_section_loop self section rest acc
      end
  end.

(** [Config.get_section]. *)
Definition get_section (self : Config) (section : string)
  : result (gmap string string) :=
  let size := section_size self section in
  get_section_loop self section (seq 0 (Z.to_nat size)) ∅.




End Config.
End ConfigMore.



Section GetSection.
Context {cfg : config_lib}.



Lemma c_string_field_raises (p : option string) (e : exn) :
  ConfigMore.c_string_field p = Raise e -> e = ValueError.
Proof.
  destruct p as [bytes |]; simpl; [| discriminate].
  unfold py_decode. destruct (utf8_valid _); [discriminate |].
  intros H. now inversion H.
Qed.

Lemma config_type_raises (n : Z) (e : exn) :
  ConfigMore.config_type n = Raise e -> e = ValueError.
Proof.
  unfold ConfigMore.config_type.
  repeat match goal with
         | |- context [if ?b then _ else _] => destruct b; [discriminate |]
         end.
  intros H. now inversion H.
Qed.



(** An entry whose type code is no member of [ConfigType] makes
    [get_entry], and with it [get_section], raise [ValueError], from
    [ConfigType] or before it from a key or value that does not decode. *)
Lemma get_entry_unknown_type (self : ConfigMore.Config) (section : string)
    (i : nat) (entry_ptr : evocore_config_entry_t) :
  Z.of_nat i <= SIZE_MAX ->
  evocore_config_get_entry (ConfigMore._config self) section (Z.of_nat i)
  = Some entry_ptr ->
  ~ 0 <= c_type entry_ptr <= 3 ->
  ConfigMore.get_entry self section (Z.of_nat i) = Raise ValueError.
Proof.
  intros Hi He Htype. unfold ConfigMore.get_entry, to_size_t.
  destruct (0 <=? Z.of_nat i) eqn:Hlo; [| apply Z.leb_gt in Hlo; lia].
  destruct (Z.of_nat i <=? SIZE_MAX) eqn:Hhi; [| apply Z.leb_gt in Hhi; lia].
  simpl. rewrite He.
  destruct (ConfigMore.c_string_field (c_key entry_ptr)) as [k | e] eqn:Hk; simpl;
    [| now rewrite (c_string_field_raises _ e Hk)].
  destruct (ConfigMore.c_string_field (c_value entry_ptr)) as [v | e] eqn:Hv; simpl;
    [| now rewrite (c_string_field_raises _ e Hv)].
  unfold ConfigMore.config_type.
  destruct (c_type entry_ptr =? 0) eqn:H0; [apply Z.eqb_eq in H0; lia |].
  destruct (c_type entry_ptr =? 1) eqn:H1; [apply Z.eqb_eq in H1; lia |].
  destruct (c_type entry_ptr =? 2) eqn:H2; [apply Z.eqb_eq in H2; lia |].
  destruct (c_type entry_ptr =? 3) eqn:H3; [apply Z.eqb_eq in H3; lia |].
  reflexivity.
Qed.

End GetSection.

Module DemoConfig.

(** Modelled from the spec: a loaded configuration (C, missing) as the
    entries of each section in file order, [None] for an index the library
    answers with [NULL]. *)
#[global] Instance cfg : config_lib := {|
  evocore_config_t := gmap string (list (option evocore_config_entry_t));
  evocore_config_section_size :=
    fun config section => Z.of_nat (length (default [] (config !! section)));
  evocore_config_get_entry :=
    fun config section index =>
      mjoin (default [] (config !! section) !! Z.to_nat index)
|}.

(** A section that sets [rate] twice. *)
Definition evolution : list (option evocore_config_entry_t) :=
  [ Some {| c_key := Some "rate"; c_value := Some "0.1"; c_type := 2 |};
    None;
    Some {| c_key := Some "rate"; c_value := Some "0.2"; c_type := 2 |};
    Some {| c_key := Some "name"; c_value := None; c_type := 0 |} ].

Definition loaded : ConfigMore.Config :=
  {| ConfigMore._config := {[ "evolution" := evolution ]} |}.

End DemoConfig.



(** A value that is not valid UTF-8, the single byte [E9], makes
    [get_section] raise ([UnicodeDecodeError]) though the type code of its
    entry is known. *)
Example get_section_undecodable :
  ConfigMore.get_section
    {| ConfigMore._config :=
         {[ "evolution" :=
              [ Some {| c_key := Some "name";
                        c_value := Some (String (ascii_of_nat 233) "");
                        c_type := 0 |} ] ]} |}
    "evolution"
  = Raise ValueError.
Proof. vm_compute. reflexivity. Qed.

(** ** meta/population.py, indexing a MetaPopulation *)
Module Population.

(** A [MetaIndividual] wraps the address of one element of the array
    [individuals] of the population struct: the element's index stands for
    the address. *)
Record MetaIndividual : Type := { _individual : Z }.

(** What the indexing methods read of a [MetaPopulation]: the member
    [count] of its [evocore_meta_population_t]. *)
Record MetaPopulation : Type := { count : Z }.

(** [MetaPopulation.get]. *)
Definition get (self : MetaPopulation) (index : Z) : option MetaIndividual :=
  if (index <? 0) || (index >=? count self) then None
  else Some {| _individual := index |}.

(** [MetaPopulation.__len__]. *)
Definition __len__ (self : MetaPopulation) : Z := count self.

(** [range(n)]. *)
Definition py_range (n : Z) : list Z := map Z.of_nat (seq 0 (Z.to_nat n)).

(** [MetaPopulation.__iter__], as the list of what it yields. *)
Definition __iter__ (self : MetaPopulation) : list MetaIndividual :=
  omap (fun i => get self i) (py_range (count self)).

(** [MetaPopulation.__getitem__]. *)
Definition __getitem__ (self : MetaPopulation) (index : Z)
  : result MetaIndividual :=
  let index := if index <? 0 then count self + index else index in
  match get self index with
  | None => Raise IndexError
  | Some ind => Ok ind
  end.

End Population.

(** [l[i]] on a Python list, for any integer: a negative index counts from
    the end, an index outside [-len(l), len(l) - 1] raises [IndexError]. *)
Definition py_list_getitem {A : Type} (l : list A) (i : Z) : result A :=
  let n := Z.of_nat (length l) in
  let j := if i <? 0 then i + n else i in
  if (j <? 0) || (j >=? n) then Raise IndexError
  else py_index l (Z.to_nat j).

Lemma population_get_in_range (self : Population.MetaPopulation) (i : Z) :
  0 <= i < Population.count self ->
  Population.get self i = Some {| Population._individual := i |}.
Proof.
  intros [Hlo Hhi]. unfold Population.get.
  destruct (i <? 0) eqn:H1; [apply Z.ltb_lt in H1; lia |].
  destruct (i >=? Population.count self) eqn:H2; [| reflexivity].
  apply Z.geb_le in H2. lia.
Qed.

Lemma population_get_none (self : Population.MetaPopulation) (i : Z) :
  Population.get self i = None <-> i < 0 \/ Population.count self <= i.
Proof.
  unfold Population.get.
  destruct (i <? 0) eqn:H1; [apply Z.ltb_lt in H1 | apply Z.ltb_ge in H1];
    simpl; [split; [lia | reflexivity] |].
  destruct (i >=? Population.count self) eqn:H2; rewrite Z.geb_leb in H2;
    [apply Z.leb_le in H2 | apply Z.leb_gt in H2].
  - split; [lia | reflexivity].
  - split; [discriminate | lia].
Qed.

Lemma population_get_some (self : Population.MetaPopulation) (i : Z)
    (ind : Population.MetaIndividual) :
  Population.get self i = Some ind ->
  0 <= i < Population.count self /\ Population._individual ind = i.
Proof.
  intros Hget.
  destruct (Z.lt_ge_cases i 0) as [Hlo | Hlo];
    [rewrite (proj2 (population_get_none self i)) in Hget by lia; discriminate |].
  destruct (Z.lt_ge_cases i (Population.count self)) as [Hhi | Hhi];
    [| rewrite (proj2 (population_get_none self i)) in Hget by lia; discriminate].
  rewrite population_get_in_range in Hget by lia.
  inversion Hget. simpl. lia.
Qed.

Lemma population_iter_range (n : nat) (self : Population.MetaPopulation) :
  forall a : nat,
    Z.of_nat (a + n) <= Population.count self ->
    omap (fun i => Population.get self i) (map Z.of_nat (seq a n))
    = map (fun i => {| Population._individual := Z.of_nat i |}) (seq a n).
Proof.
  induction n as [| n IH]; intros a Hle; [reflexivity |].
  simpl. rewrite population_get_in_range by lia.
  f_equal. apply IH. lia.
Qed.

Lemma population_iter (self : Population.MetaPopulation) :
  0 <= Population.count self ->
  Population.__iter__ self
  = map (fun i => {| Population._individual := Z.of_nat i |})
        (seq 0 (Z.to_nat (Population.count self))).
Proof.
  intros Hcount. unfold Population.__iter__, Population.py_range.
  apply population_iter_range. lia.
Qed.

(** A [MetaPopulation] indexes like the list of its iteration: iterating
    yields [len(pop)] individuals, the one at position [i] wrapping element
    [i], and [pop[index]] is [list(pop)[index]] for every integer: the same
    individual for [-len(pop) <= index < len(pop)], negative indices
    counting from the end, and [IndexError] otherwise. *)
Theorem population_indexes_like_its_list (self : Population.MetaPopulation)
    (Hcount : 0 <= Population.count self) :
  Z.of_nat (length (Population.__iter__ self)) = Population.__len__ self /\
  (forall i : nat,
      Z.of_nat i < Population.count self ->
      Population.__iter__ self !! i
      = Some {| Population._individual := Z.of_nat i |}) /\
  (forall index : Z,
      Population.__getitem__ self index
      = py_list_getitem (Population.__iter__ self) index) /\
  (forall index : Z,
      raises (Population.__getitem__ self index) <->
      index < - Population.count self \/ Population.count self <= index).
Proof.
  pose proof (population_iter self Hcount) as Hiter.
  assert (Hlen : Z.of_nat (length (Population.__iter__ self)) = Population.count self).
  { rewrite Hiter, length_map, length_seq. lia. }
  assert (Hnth : forall i : nat,
             Z.of_nat i < Population.count self ->
             Population.__iter__ self !! i
             = Some {| Population._individual := Z.of_nat i |}).
  { intros i Hi. rewrite Hiter, list_lookup_fmap, lookup_seq_lt by lia.
    reflexivity. }
  split; [exact Hlen |]. split; [exact Hnth |]. split.
  - intros index. unfold Population.__getitem__, py_list_getitem.
    rewrite Hlen. rewrite (Z.add_comm index).
    set (j := if index <? 0 then Population.count self + index else index).
    unfold Population.get.
    destruct ((j <? 0) || (j >=? Population.count self)) eqn:Hout;
      [reflexivity |].
    apply orb_false_iff in Hout. destruct Hout as [Hlo Hhi].
    apply Z.ltb_ge in Hlo.
    assert (j < Population.count self).
    { destruct (j >=? Population.count self) eqn:H; [discriminate |].
      rewrite Z.geb_leb in H. apply Z.leb_gt in H. lia. }
    unfold py_index. rewrite (Hnth (Z.to_nat j)) by lia.
    now rewrite Z2Nat.id.
  - intros index. unfold Population.__getitem__.
    destruct (index <? 0) eqn:Hneg;
      [apply Z.ltb_lt in Hneg | apply Z.ltb_ge in Hneg].
    + destruct (Population.get self (Population.count self + index)) as [ind |] eqn:Hget.
      * pose proof (proj1 (population_get_some _ _ _ Hget)).
        split; [intros [e He]; discriminate He | lia].
      * apply population_get_none in Hget.
        split; [intros _; lia | intros _; now eexists].
    + destruct (Population.get self index) as [ind |] eqn:Hget.
      * pose proof (proj1 (population_get_some _ _ _ Hget)).
        split; [intros [e He]; discriminate He | lia].
      * apply population_get_none in Hget.
        split; [intros _; lia | intros _; now eexists].
Qed.

Lemma population_indexes_like_its_list_witness :
  0 <= Population.count {| Population.count := 3 |} /\
  Population.__getitem__ {| Population.count := 3 |} (-1)
  = py_list_getitem (Population.__iter__ {| Population.count := 3 |}) (-1) /\
  (raises (Population.__getitem__ {| Population.count := 3 |} (-4)) <->
   -4 < - Population.count {| Population.count := 3 |} \/
   Population.count {| Population.count := 3 |} <= -4).
Proof.
  assert (Hcount : 0 <= Population.count {| Population.count := 3 |})
    by (simpl; lia).
  split; [exact Hcount |].
  destruct (population_indexes_like_its_list {| Population.count := 3 |} Hcount)
    as (_ & _ & Hget & Hraise).
  split; [apply Hget | apply Hraise].
Defined.

Example population_indexing_examples :
  Population.__getitem__ {| Population.count := 3 |} (-1)
  = Ok {| Population._individual := 2 |} /\
  Population.__getitem__ {| Population.count := 3 |} 0
  = Ok {| Population._individual := 0 |} /\
  Population.__getitem__ {| Population.count := 3 |} 3 = Raise IndexError /\
  Population.__getitem__ {| Population.count := 3 |} (-4) = Raise IndexError /\
  Population.__getitem__ {| Population.count := 0 |} 0 = Raise IndexError.
Proof. repeat split. Qed.

(** ** WeightedArray.update, accepted calls *)
Section UpdateAccepted.
Context {lib : evocore_lib}.

(** [update] raises only for a length other than [count]: with [count]
    values, and weights that are absent or [count] long, it returns the
    library's answer and keeps [count]; leaving the weights out is passing
    [count] ones. *)
Theorem update_accepts_matching_lengths (self : Weighted.WeightedArray)
    (values : list float) (weights : option (list float)) (global_weight : float)
    (Hvalues : length values = Weighted._count self)
    (Hweights : forall w, weights = Some w -> length w = Weighted._count self) :
  (exists (answer : bool) (self' : Weighted.WeightedArray),
      Weighted.update self values weights global_weight = (Ok answer, self') /\
      Weighted._count self' = Weighted._count self /\
      (answer, Weighted._array self')
      = evocore_weighted_array_update (Weighted._array self) values
          (default (repeat 1%float (Weighted._count self)) weights)
          (Z.of_nat (Weighted._count self)) global_weight) /\
  Weighted.update self values None global_weight
  = Weighted.update self values (Some (repeat 1%float (Weighted._count self)))
      global_weight.
Proof.
  apply length_test_false in Hvalues. split.
  - unfold Weighted.update. rewrite Hvalues.
    destruct weights as [w |]; simpl.
    + pose proof (Hweights w eq_refl) as Hw. apply length_test_false in Hw.
      rewrite Hw.
      destruct (evocore_weighted_array_update _ _ _ _ _) as [answer arr].
      exists answer. eexists. repeat split.
    + unfold Weighted.np_ones.
      destruct (evocore_weighted_array_update _ _ _ _ _) as [answer arr].
      exists answer. eexists. repeat split.
  - unfold Weighted.update, Weighted.np_ones. rewrite Hvalues.
    rewrite repeat_length, Nat.eqb_refl. reflexivity.
Qed.

End UpdateAccepted.

Lemma update_accepts_matching_lengths_witness :
  length [0.1; 0.2; 0.3]%float = Weighted._count Demo.triple /\
  (forall w, @None (list float) = Some w -> length w = Weighted._count Demo.triple) /\
  Weighted.update Demo.triple [0.1; 0.2; 0.3]%float None 2%float
  = Weighted.update Demo.triple [0.1; 0.2; 0.3]%float (Some [1; 1; 1]%float) 2%float.
Proof.
  assert (Hw : forall w, @None (list float) = Some w ->
                         length w = Weighted._count Demo.triple)
    by (intros w H; discriminate H).
  split; [reflexivity |]. split; [exact Hw |].
  exact (proj2 (@update_accepts_matching_lengths Demo.lib Demo.triple
                  [0.1; 0.2; 0.3]%float None 2%float eq_refl Hw)).
Defined.

(** ** ProgressReporter, report and force_report in one run *)

(** A call on the reporter. *)
Inductive reporter_call : Type :=
| Report (stats : Stats.Stats)
| ForceReport (stats : Stats.Stats).

(** A run of calls, each on the reporter the one before left. *)
Fixpoint run_calls {World : Type} (self : @Stats.ProgressReporter World)
    (calls : list reporter_call) (w : World)
  : @Stats.ProgressReporter World * World :=
  match calls with
  | [] => (self, w)
  | Report stats :: rest =>
      let '(self', w') := Stats.report self stats w in run_calls self' rest w'
  | ForceReport stats :: rest =>
      let '(self', w') := Stats.force_report self stats w in run_calls self' rest w'
  end.

(** The calls of the run that invoke the callback, in order. *)
Fixpoint invoking {World : Type} (self : @Stats.ProgressReporter World)
    (calls : list reporter_call) : list reporter_call :=
  match calls with
  | [] => []
  | Report stats :: rest =>
      if Stats.due self stats
      then Report stats
           :: invoking (Stats.set_last_reported self (Stats.generation stats)) rest
      else invoking self rest
  | ForceReport stats :: rest =>
      ForceReport stats
      :: invoking (Stats.set_last_reported self (Stats.generation stats)) rest
  end.

Definition call_stats (c : reporter_call) : Stats.Stats :=
  match c with Report stats | ForceReport stats => stats end.

(** Every invocation made by [report] is at least [every_n] generations
    after the invocation before it, forced or not ([last] before the
    first). *)
Fixpoint spaced_reports (every_n last : Z) (invocations : list reporter_call)
  : Prop :=
  match invocations with
  | [] => True
  | Report stats :: rest =>
      Stats.generation stats - last >= every_n /\
      spaced_reports every_n (Stats.generation stats) rest
  | ForceReport stats :: rest =>
      spaced_reports every_n (Stats.generation stats) rest
  end.

Lemma run_calls_invoking (calls : list reporter_call) :
  forall (self : @Stats.ProgressReporter (list Stats.Stats))
         (seen : list Stats.Stats),
    Stats._callback self = Stats.recorder ->
    (run_calls self calls seen).2
    = (seen ++ map call_stats (invoking self calls))%list /\
    spaced_reports (Stats._every_n self) (Stats._last_reported self)
      (invoking self calls).
Proof.
  induction calls as [| [stats | stats] rest IH]; intros self seen Hcb.
  - simpl. now rewrite app_nil_r.
  - simpl. rewrite report_unfold. destruct (Stats.due self stats) eqn:Hdue.
    + destruct (IH (Stats.set_last_reported self (Stats.generation stats))
                   (Stats._callback self stats seen) Hcb) as [Hrun Hsp].
      split.
      * rewrite Hrun, Hcb. unfold Stats.recorder. simpl.
        now rewrite <- app_assoc.
      * simpl. split; [now apply due_iff | exact Hsp].
    + apply (IH self seen Hcb).
  - simpl. unfold Stats.force_report.
    destruct (IH (Stats.set_last_reported self (Stats.generation stats))
                 (Stats._callback self stats seen) Hcb) as [Hrun Hsp].
    split.
    + rewrite Hrun, Hcb. unfold Stats.recorder. simpl.
      now rewrite <- app_assoc.
    + exact Hsp.
Qed.

(** In a run that mixes [report] and [force_report], [force_report] always
    invokes the callback, and every invocation made by [report] is at
    least [every_n] generations after the invocation before it, whichever
    method made that one: a forced report restarts the cadence from its
    generation. *)
Theorem forced_reports_restart_cadence (every_n : Z) (verbose : bool)
    (calls : list reporter_call) :
  let self := Stats.init Stats.recorder every_n verbose in
  (run_calls self calls []).2 = map call_stats (invoking self calls) /\
  spaced_reports every_n (-1) (invoking self calls) /\
  (forall stats : Stats.Stats,
      ForceReport stats ∈ calls -> ForceReport stats ∈ invoking self calls).
Proof.
  intros self.
  destruct (run_calls_invoking calls self [] eq_refl) as [Hrun Hsp].
  split; [exact Hrun |]. split; [exact Hsp |].
  intros stats. generalize self. clear.
  induction calls as [| [s | s] rest IH]; intros self Hin.
  - inversion Hin.
  - apply elem_of_cons in Hin. destruct Hin as [Hin | Hin]; [discriminate Hin |].
    simpl. destruct (Stats.due self s); [right |]; now apply IH.
  - apply elem_of_cons in Hin. destruct Hin as [Hin | Hin].
    + inversion Hin. simpl. now left.
    + simpl. right. now apply IH.
Qed.

Example forced_report_example :
  map Stats.generation
    (run_calls (Stats.init Stats.recorder 5 false)
       [Report (snapshot 4); ForceReport (snapshot 6); Report (snapshot 9);
        Report (snapshot 10); Report (snapshot 11)] []).2
  = [4; 6; 11].
Proof. reflexivity. Qed.

(** ** Config.get_section on an entry of unknown type *)
Section GetSectionErrors.
Context {cfg : config_lib}.

Lemma get_section_loop_app (self : ConfigMore.Config) (section : string)
    (l1 l2 : list nat) :
  forall acc : gmap string string,
    ConfigMore.get_section_loop self section (l1 ++ l2) acc =
    match ConfigMore.get_section_loop self section l1 acc with
    | Ok m => ConfigMore.get_section_loop self section l2 m
    | Raise e => Raise e
    end.
Proof.
  induction l1 as [| i l1 IH]; intros acc; [reflexivity |].
  simpl. destruct (ConfigMore.get_entry self section (Z.of_nat i)) as [[e |] | err];
    simpl; [apply IH | apply IH | reflexivity].
Qed.

(** Within the range of [size_t], [get_entry] raises nothing but
    [ValueError]: from a key or value that does not decode, or from
    [ConfigType]. *)
Lemma get_entry_raises_value_error (self : ConfigMore.Config) (section : string)
    (i : nat) (e : exn) :
  Z.of_nat i <= SIZE_MAX ->
  ConfigMore.get_entry self section (Z.of_nat i) = Raise e -> e = ValueError.
Proof.
  intros Hi. unfold ConfigMore.get_entry, to_size_t.
  destruct (0 <=? Z.of_nat i) eqn:Hlo; [| apply Z.leb_gt in Hlo; lia].
  destruct (Z.of_nat i <=? SIZE_MAX) eqn:Hhi; [| apply Z.leb_gt in Hhi; lia].
  simpl.
  destruct (evocore_config_get_entry _ section (Z.of_nat i)) as [entry_ptr |];
    [| discriminate].
  destruct (ConfigMore.c_string_field (c_key entry_ptr)) as [k | e1] eqn:Hk; simpl.
  2: { intros H. inversion H; subst. eapply c_string_field_raises, Hk. }
  destruct (ConfigMore.c_string_field (c_value entry_ptr)) as [v | e2] eqn:Hv; simpl.
  2: { intros H. inversion H; subst. eapply c_string_field_raises, Hv. }
  destruct (ConfigMore.config_type (c_type entry_ptr)) as [t | e3] eqn:Ht; simpl;
    [discriminate |].
  intros H. inversion H; subst. eapply config_type_raises, Ht.
Qed.

Lemma get_section_loop_raises_value_error (self : ConfigMore.Config)
    (section : string) (indices : list nat) :
  Forall (fun i => Z.of_nat i <= SIZE_MAX) indices ->
  forall (acc : gmap string string) (e : exn),
    ConfigMore.get_section_loop self section indices acc = Raise e ->
    e = ValueError.
Proof.
  induction 1 as [| i rest Hi _ IH]; intros acc e; [discriminate |].
  simpl.
  destruct (ConfigMore.get_entry self section (Z.of_nat i)) as [[entry |] | err]
    eqn:Hentry; simpl; [apply IH | apply IH |].
  intros H. inversion H; subst.
  exact (get_entry_raises_value_error self section i e Hi Hentry).
Qed.

(** [get_section] raises [ValueError] when the section has an entry whose
    type code is not one of the four of [ConfigType]: the first such entry
    stops the enumeration, and no dictionary is returned. *)
Theorem get_section_unknown_type_raises (self : ConfigMore.Config)
    (section : string) (i : nat) (entry_ptr : evocore_config_entry_t)
    (Hsize : ConfigMore.section_size self section <= SIZE_MAX)
    (Hi : Z.of_nat i < ConfigMore.section_size self section)
    (Hentry : evocore_config_get_entry (ConfigMore._config self) section (Z.of_nat i)
              = Some entry_ptr)
    (Hbad : ~ 0 <= c_type entry_ptr <= 3)
    (Hfirst : forall (j : nat) (e : evocore_config_entry_t),
        (j < i)%nat ->
        evocore_config_get_entry (ConfigMore._config self) section (Z.of_nat j)
        = Some e -> 0 <= c_type e <= 3) :
  ConfigMore.get_section self section = Raise ValueError.
Proof.
  unfold ConfigMore.get_section.
  set (n := Z.to_nat (ConfigMore.section_size self section)).
  assert (Hn : (i < n)%nat) by (unfold n; lia).
  replace n with (i + S (n - S i))%nat by lia.
  rewrite seq_app, get_section_loop_app. simpl.
  destruct (ConfigMore.get_section_loop self section (seq 0 i) ∅) as [m | e]
    eqn:Hprefix.
  - now rewrite (get_entry_unknown_type self section i entry_ptr ltac:(lia)
                   Hentry Hbad).
  - f_equal. apply (get_section_loop_raises_value_error self section (seq 0 i))
      with (acc := (∅ : gmap string string)); [| exact Hprefix].
    apply Forall_forall. intros j Hj. apply elem_of_seq in Hj. lia.
Qed.

End GetSectionErrors.

Module DemoConfigBad.

(** A section whose second entry carries a type code [ConfigType] does
    not know. *)
Definition broken : ConfigMore.Config :=
  {| ConfigMore._config :=
       {[ "evolution" :=
            [ Some {| c_key := Some "rate"; c_value := Some "0.1"; c_type := 2 |};
              Some {| c_key := Some "mode"; c_value := Some "x"; c_type := 7 |} ] ]} |}.

End DemoConfigBad.

Lemma get_section_unknown_type_raises_witness :
  ConfigMore.section_size DemoConfigBad.broken "evolution" <= SIZE_MAX /\
  Z.of_nat 1 < ConfigMore.section_size DemoConfigBad.broken "evolution" /\
  ConfigMore.get_section DemoConfigBad.broken "evolution" = Raise ValueError.
Proof.
  assert (Hsize : ConfigMore.section_size DemoConfigBad.broken "evolution"
                  <= SIZE_MAX) by (vm_compute; discriminate).
  assert (Hi : Z.of_nat 1 < ConfigMore.section_size DemoConfigBad.broken "evolution")
    by reflexivity.
  split; [exact Hsize |]. split; [exact Hi |].
  apply (get_section_unknown_type_raises DemoConfigBad.broken "evolution" 1%nat
           {| c_key := Some "mode"; c_value := Some "x"; c_type := 7 |}
           Hsize Hi eq_refl).
  - simpl. lia.
  - intros j e Hj He. assert (j = 0%nat) by lia. subst j.
    vm_compute in He. inversion He. simpl. lia.
Defined.

(** ** MetaParams, the names of its fields *)

(** [to_dict] has one key for each of the 25 members of the declared
    struct, each once, with the value its property returns; [PARAM_NAMES]
    lists the same names except ['negative_learning_enabled']. *)
Theorem to_dict_covers_every_member (self : Params.MetaParams)
    (p : evocore_meta_params_t)
    (Hself : Params._params self = Params.Handle p) :
  exists d : list (string * Params.pyval),
    Params.to_dict self = Ok d /\
    length d = 25%nat /\
    NoDup d.*1 /\
    (forall f : Params.field, (Params.field_name f, Params.read_field p f) ∈ d) /\
    (forall name : string,
        name ∈ Params.PARAM_NAMES <->
        name ∈ d.*1 /\ name <> "negative_learning_enabled").
Proof.
  exists (map (fun f => (Params.field_name f, Params.read_field p f))
              Params.all_fields).
  assert (Hkeys : (map (fun f => (Params.field_name f, Params.read_field p f))
                       Params.all_fields).*1
                  = map Params.field_name Params.all_fields) by reflexivity.
  split; [now apply to_dict_items |].
  split; [reflexivity |]. rewrite Hkeys. split; [| split].
  - apply (bool_decide_unpack _). vm_compute. exact I.
  - intros f. apply list_elem_of_fmap. exists f.
    split; [reflexivity | apply all_fields_complete].
  - intros name. split.
    + intros Hin. unfold Params.PARAM_NAMES in Hin.
      repeat (apply elem_of_cons in Hin; destruct Hin as [-> | Hin];
              [split; [apply (bool_decide_unpack _); vm_compute; exact I | discriminate] |]).
      inversion Hin.
    + intros [Hin Hne]. unfold Params.all_fields in Hin. simpl in Hin.
      repeat (apply elem_of_cons in Hin; destruct Hin as [-> | Hin];
              [first [contradiction
                     | apply (bool_decide_unpack _); vm_compute; exact I] |]).
      inversion Hin.
Qed.

Lemma to_dict_covers_every_member_witness :
  Params._params (around Demo.defaults) = Params.Handle Demo.defaults /\
  exists d : list (string * Params.pyval),
    Params.to_dict (around Demo.defaults) = Ok d /\
    length d = 25%nat /\
    NoDup d.*1 /\
    (forall f : Params.field,
        (Params.field_name f, Params.read_field Demo.defaults f) ∈ d) /\
    (forall name : string,
        name ∈ Params.PARAM_NAMES <->
        name ∈ d.*1 /\ name <> "negative_learning_enabled").
Proof.
  split; [reflexivity |].
  exact (to_dict_covers_every_member (around Demo.defaults) Demo.defaults eq_refl).
Defined.
